(** * Sales report pipeline ([app.py]): cleaning, aggregation, chart naming
      and the report store.

    The pipeline of [app.py] is embedded as pure functions over lists of
    rows.  A pandas column of dtype float64/int64 is a column of rationals
    ([Q]): arithmetic is exact, rounding of binary floating point and the
    special values [inf]/[-inf] are outside the model; [NaN]/[NaT] (a
    missing value) is [None].  The library routines the code calls but does
    not define ([pd.to_datetime], the text-to-number parser behind
    [pd.to_numeric], [json.dumps]/[json.loads]) are taken as parameters;
    an uploaded file carries what [pd.read_csv] makes of it. *)

From Stdlib Require Import List String Ascii ZArith QArith Qround Bool Lia
  Permutation Sorted Setoid Morphisms.
Import ListNotations.

Local Open Scope list_scope.
Local Open Scope string_scope.
Local Open Scope Z_scope.

Set Warnings "-register-all".

(* ------------------------------------------------------------------ *)
(** ** Python results and exceptions *)

Inductive exn : Type :=
| ValueError (msg : string)
| ZeroDivisionError (msg : string)
| OperationalError (msg : string)
| LibraryError (msg : string).

(** [str(e)], as interpolated by [f"Hata: {e}"]. *)
Definition exn_str (e : exn) : string :=
  match e with
  | ValueError m | ZeroDivisionError m | OperationalError m | LibraryError m => m
  end.

Inductive result (A : Type) : Type :=
| Ok (a : A)
| Raise (e : exn).
Arguments Ok {A} a.
Arguments Raise {A} e.

Definition bind {A B} (m : result A) (k : A -> result B) : result B :=
  match m with
  | Ok a => k a
  | Raise e => Raise e
  end.

Notation "x <- m ;; k" := (bind m (fun x => k))
  (at level 61, m at next level, right associativity).

(* ------------------------------------------------------------------ *)
(** ** Dates *)

Record date : Type := mkdate { year : Z; month : Z; day : Z }.

(** [datetime.datetime] / [pd.Timestamp]: a calendar date and a time of day. *)
Record datetime : Type := mkdatetime {
  dt_date : date;
  hour : Z;
  minute : Z;
  second : Z;
  microsecond : Z
}.

(** [a <= b] on [datetime.date]: lexicographic on (year, month, day). *)
Definition date_leb (a b : date) : bool :=
  (year a <? year b)
  || ((year a =? year b)
      && ((month a <? month b) || ((month a =? month b) && (day a <=? day b)))).

Definition digit (n : Z) : ascii := ascii_of_nat (48 + Z.to_nat (n mod 10)).

(** [%02d] and [%04d]. *)
Definition zfill2 (n : Z) : string :=
  String (digit (n / 10)) (String (digit n) EmptyString).

Definition zfill4 (n : Z) : string :=
  String (digit (n / 1000)) (String (digit (n / 100)) (zfill2 n)).

(** [str(d)] for a [datetime.date]: ISO [YYYY-MM-DD]. *)
Definition date_str (d : date) : string :=
  zfill4 (year d) ++ "-" ++ zfill2 (month d) ++ "-" ++ zfill2 (day d).

(** [t.strftime('%Y%m%d_%H%M%S')] (years of four digits). *)
Definition strftime_stamp (t : datetime) : string :=
  zfill4 (year (dt_date t)) ++ zfill2 (month (dt_date t))
  ++ zfill2 (day (dt_date t)) ++ "_"
  ++ zfill2 (hour t) ++ zfill2 (minute t) ++ zfill2 (second t).

(** [t.isoformat(timespec="seconds")]. *)
Definition isoformat_seconds (t : datetime) : string :=
  date_str (dt_date t) ++ "T"
  ++ zfill2 (hour t) ++ ":" ++ zfill2 (minute t) ++ ":" ++ zfill2 (second t).

(** The field ranges of a [datetime] whose year prints with four digits. *)
Definition valid_date (d : date) : Prop :=
  1000 <= year d <= 9999 /\ 1 <= month d <= 12 /\ 1 <= day d <= 31.

Definition valid_datetime (t : datetime) : Prop :=
  valid_date (dt_date t)
  /\ 0 <= hour t <= 23 /\ 0 <= minute t <= 59 /\ 0 <= second t <= 59
  /\ 0 <= microsecond t <= 999999.

(** Two clock readings fall in the same second. *)
Definition same_second (a b : datetime) : Prop :=
  dt_date a = dt_date b /\ hour a = hour b /\ minute a = minute b
  /\ second a = second b.

(* ------------------------------------------------------------------ *)
(** ** Cells and data frames *)

(** A cell of the frame returned by [pd.read_csv]. *)
Inductive cell : Type :=
| NaN
| Num (q : Q)
| Str (s : string).

(** A non-missing value of an identifier column ([order_id], [product]).
    Numbers are kept as reduced fractions, so that Leibniz equality is
    numeric equality. *)
Inductive key : Type :=
| KNum (q : Q)
| KStr (s : string).

Definition key_of (c : cell) : option key :=
  match c with
  | NaN => None
  | Num q => Some (KNum (Qred q))
  | Str s => Some (KStr s)
  end.

Definition Q_eq_dec (a b : Q) : {a = b} + {a <> b}.
Proof. decide equality; [apply Pos.eq_dec | apply Z.eq_dec]. Defined.

Definition key_eq_dec (a b : key) : {a = b} + {a <> b}.
Proof. decide equality; [apply Q_eq_dec | apply string_dec]. Defined.

Definition date_eq_dec (a b : date) : {a = b} + {a <> b}.
Proof. decide equality; apply Z.eq_dec. Defined.

Definition key_eqb (a b : key) : bool := if key_eq_dec a b then true else false.

(** Order of the group keys of one column (numbers before text). *)
Definition key_leb (a b : key) : bool :=
  match a, b with
  | KNum x, KNum y => Qle_bool x y
  | KNum _, KStr _ => true
  | KStr _, KNum _ => false
  | KStr x, KStr y => String.leb x y
  end.

Record DataFrame : Type := mkDataFrame {
  columns : list string;
  data : list (list cell)
}.

Fixpoint col_index (c : string) (cols : list string) : option nat :=
  match cols with
  | [] => None
  | h :: t => if String.eqb c h then Some 0%nat
              else option_map S (col_index c t)
  end.

(** [row[c]]: the cell of a row under column [c] (short rows are padded
    with missing values by the reader). *)
Definition get (cols : list string) (c : string) (r : list cell) : cell :=
  match col_index c cols with
  | Some i => nth i r NaN
  | None => NaN
  end.

Definition REQUIRED_COLS : list string :=
  ["date"; "order_id"; "product"; "quantity"; "unit_price"].

(* ------------------------------------------------------------------ *)
(** ** Generic list operations standing for the pandas calls *)

Fixpoint insert {A} (leb : A -> A -> bool) (x : A) (l : list A) : list A :=
  match l with
  | [] => [x]
  | y :: t => if leb x y then x :: l else y :: insert leb x t
  end.

(** Stable sort: [sorted(...)] and [sort_values(...)]. *)
Fixpoint sort {A} (leb : A -> A -> bool) (l : list A) : list A :=
  match l with
  | [] => []
  | x :: t => insert leb x (sort leb t)
  end.

Definition Qsum (l : list Q) : Q := fold_right Qplus 0%Q l.

Definition Qlt_bool (a b : Q) : bool := negb (Qle_bool b a).

(** [int(x)]: truncation toward zero. *)
Definition py_int (x : Q) : Z := Z.quot (Qnum x) (Zpos (Qden x)).

(** [float(a / b)] with [b] a Python [int]. *)
Definition py_truediv (a : Q) (b : Z) : result Q :=
  if b =? 0 then Raise (ZeroDivisionError "float division by zero")
  else Ok (a / inject_Z b)%Q.

Definition mem_string (c : string) (l : list string) : bool :=
  existsb (String.eqb c) l.

(** [series.nunique()] on a column without missing values. *)
Definition nunique {A} (dec : forall a b : A, {a = b} + {a <> b})
  (l : list A) : Z := Z.of_nat (List.length (nodup dec l)).

(** The group keys of [groupby(...)]: distinct, in ascending order. *)
Definition group_keys {A} (dec : forall a b : A, {a = b} + {a <> b})
  (leb : A -> A -> bool) (l : list A) : list A :=
  sort leb (nodup dec l).

(* ------------------------------------------------------------------ *)
(** ** Validator / cleaner: [load_and_clean] *)

(** A row after the three coercions. *)
Record CoercedRow : Type := mkCoerced {
  c_date : option datetime;
  c_order_id : cell;
  c_product : cell;
  c_quantity : option Q;
  c_unit_price : option Q
}.

(** A row of the cleaned frame. *)
Record Row : Type := mkRow {
  date_ : datetime;
  order_id : key;
  product : key;
  quantity : Q;
  unit_price : Q;
  revenue : Q
}.

(** A row that passed [dropna], before [revenue] is added. *)
Record Row0 : Type := mkRow0 {
  r0_date : datetime;
  r0_order_id : key;
  r0_product : key;
  r0_quantity : Q;
  r0_unit_price : Q
}.

(** The uploaded file: its name and what [pd.read_csv] makes of it. *)
Record Upload : Type := mkUpload {
  filename : string;
  read_csv : result DataFrame
}.

Section Cleaner.

(** [pd.to_datetime(cell, errors="coerce")]. *)
Variable to_datetime : cell -> option datetime.
(** The number parser applied by [pd.to_numeric] to text. *)
Variable parse_numeric : string -> option Q.

(** [pd.to_numeric(cell, errors="coerce")]. *)
Definition to_numeric (c : cell) : option Q :=
  match c with
  | NaN => None
  | Num q => Some q
  | Str s => parse_numeric s
  end.

Definition coerce (cols : list string) (r : list cell) : CoercedRow :=
  {| c_date := to_datetime (get cols "date" r);
     c_order_id := get cols "order_id" r;
     c_product := get cols "product" r;
     c_quantity := to_numeric (get cols "quantity" r);
     c_unit_price := to_numeric (get cols "unit_price" r) |}.

(** One row of [dropna(subset=[...])]. *)
Definition dropna_row (r : CoercedRow) : option Row0 :=
  match c_date r, key_of (c_order_id r), key_of (c_product r),
        c_quantity r, c_unit_price r with
  | Some d, Some o, Some p, Some q, Some u => Some (mkRow0 d o p q u)
  | _, _, _, _, _ => None
  end.

Fixpoint dropna (l : list CoercedRow) : list Row0 :=
  match l with
  | [] => []
  | r :: t => match dropna_row r with
              | Some r0 => r0 :: dropna t
              | None => dropna t
              end
  end.

Definition add_revenue (r : Row0) : Row :=
  mkRow (r0_date r) (r0_order_id r) (r0_product r) (r0_quantity r)
        (r0_unit_price r) (r0_quantity r * r0_unit_price r)%Q.

(** [REQUIRED_COLS - set(df.columns)]. *)
Definition missing_cols (cols : list string) : list string :=
  filter (fun c => negb (mem_string c cols)) REQUIRED_COLS.

Definition load_and_clean (csv_file : Upload) : result (list Row) :=
  df <- read_csv csv_file ;;
  let missing := missing_cols (columns df) in
  match missing with
  | _ :: _ =>
      Raise (ValueError ("Eksik sütun(lar): "
                         ++ String.concat ", " (sort String.leb missing)))
  | [] =>
      let df1 := map (coerce (columns df)) (data df) in
      let df2 := dropna df1 in
      let df3 := filter (fun r => Qlt_bool 0 (r0_quantity r)) df2 in
      let df4 := filter (fun r => Qle_bool 0 (r0_unit_price r)) df3 in
      Ok (map add_revenue df4)
  end.

End Cleaner.

(* ------------------------------------------------------------------ *)
(** ** Aggregator: [summarize] *)

Record KPI : Type := mkKPI {
  total_revenue : Q;
  total_orders : Z;
  total_items : Z;
  aov : Q
}.

(** A row of the [top_products] frame. *)
Record ProductEntry : Type := mkProductEntry {
  p_product : key;
  p_revenue : Q;
  p_units : Q;
  p_orders : Z
}.

(** A row of the [daily] frame while [day] still holds [date] objects. *)
Record DailyAgg : Type := mkDailyAgg {
  a_day : date;
  a_revenue : Q;
  a_orders : Z;
  a_units : Q
}.

(** A row of the [daily] frame after [astype(str)]. *)
Record DailyEntry : Type := mkDailyEntry {
  d_day : string;
  d_revenue : Q;
  d_orders : Z;
  d_units : Q
}.

Record Summary : Type := mkSummary {
  kpi : KPI;
  top_products : list ProductEntry;
  daily : list DailyEntry
}.

(** [df["date"].dt.date]. *)
Definition day_of (r : Row) : date := dt_date (date_ r).

Definition date_eq_b (a b : date) : bool :=
  if date_eq_dec a b then true else false.

Definition product_group (df : list Row) (p : key) : list Row :=
  filter (fun r => key_eqb (product r) p) df.

Definition day_group (df : list Row) (d : date) : list Row :=
  filter (fun r => date_eq_b (day_of r) d) df.

(** [agg(revenue=sum, units=sum, orders=nunique)] on one product group. *)
Definition product_agg (df : list Row) (p : key) : ProductEntry :=
  let g := product_group df p in
  {| p_product := p;
     p_revenue := Qsum (map revenue g);
     p_units := Qsum (map quantity g);
     p_orders := nunique key_eq_dec (map order_id g) |}.

(** [agg(revenue=sum, orders=nunique, units=sum)] on one day group. *)
Definition daily_agg (df : list Row) (d : date) : DailyAgg :=
  let g := day_group df d in
  {| a_day := d;
     a_revenue := Qsum (map revenue g);
     a_orders := nunique key_eq_dec (map order_id g);
     a_units := Qsum (map quantity g) |}.

(** Row order of [sort_values(["revenue", "units"], ascending=False)]:
    [a] may stand before [b]. *)
Definition rank_geb (a b : ProductEntry) : bool :=
  Qlt_bool (p_revenue b) (p_revenue a)
  || (Qeq_bool (p_revenue a) (p_revenue b) && Qle_bool (p_units b) (p_units a)).

(** Row order of [sort_values("day", ascending=False)]. *)
Definition day_geb (a b : DailyAgg) : bool := date_leb (a_day b) (a_day a).

Definition groupby_product (df : list Row) : list ProductEntry :=
  map (product_agg df) (group_keys key_eq_dec key_leb (map product df)).

Definition groupby_day (df : list Row) : list DailyAgg :=
  map (daily_agg df) (group_keys date_eq_dec date_leb (map day_of df)).

Definition top_products_frame (df : list Row) : list ProductEntry :=
  firstn 10 (sort rank_geb (groupby_product df)).

Definition daily_frame (df : list Row) : list DailyAgg :=
  firstn 14 (sort day_geb (groupby_day df)).

Definition astype_str (a : DailyAgg) : DailyEntry :=
  {| d_day := date_str (a_day a);
     d_revenue := a_revenue a;
     d_orders := a_orders a;
     d_units := a_units a |}.

Definition summarize (df : list Row) : result Summary :=
  let total_revenue := Qsum (map revenue df) in
  let total_orders := nunique key_eq_dec (map order_id df) in
  let total_items := py_int (Qsum (map quantity df)) in
  aov <- (if total_orders =? 0 then Ok 0%Q
          else py_truediv total_revenue total_orders) ;;
  let top_products := top_products_frame df in
  let daily := map astype_str (daily_frame df) in
  Ok {| kpi := {| total_revenue := total_revenue;
                  total_orders := total_orders;
                  total_items := total_items;
                  aov := aov |};
        top_products := top_products;
        daily := daily |}.

(* ------------------------------------------------------------------ *)
(** ** Chart generator: [make_daily_revenue_chart] *)

(** The plotted line: the days and the revenue of each day. *)
Definition Figure : Type := list (date * Q).

(** The directory [static/]: file names and their contents. *)
Definition Directory : Type := list (string * Figure).

Definition read_file (name : string) (d : Directory) : option Figure :=
  option_map snd (find (fun e => String.eqb (fst e) name) d).

(** [fig.savefig(path)]: creates the file or replaces its contents. *)
Definition write_file (name : string) (f : Figure) (d : Directory) : Directory :=
  (name, f) :: filter (fun e => negb (String.eqb (fst e) name)) d.

Definition chart_series (df : list Row) : Figure :=
  sort (fun a b => date_leb (fst a) (fst b))
       (map (fun d => (d, Qsum (map revenue (day_group df d))))
            (group_keys date_eq_dec date_leb (map day_of df))).

Definition chart_filename (now : datetime) : string :=
  "daily_revenue_" ++ strftime_stamp now ++ ".png".

(** [now] is the reading of [datetime.now()] inside the call. *)
Definition make_daily_revenue_chart (df : list Row) (now : datetime)
  (static : Directory) : string * Directory :=
  let daily := chart_series df in
  let filename := chart_filename now in
  (filename, write_file filename daily static).

(* ------------------------------------------------------------------ *)
(** ** Report store and routes *)

(** The Python values handed to [json.dumps] and returned by [json.loads]. *)
Inductive json : Type :=
| JNum (q : Q)
| JInt (z : Z)
| JStr (s : string)
| JList (l : list json)
| JDict (l : list (string * json)).

Definition json_of_key (k : key) : json :=
  match k with
  | KNum q => JNum q
  | KStr s => JStr s
  end.

(** [summary["kpi"]]. *)
Definition kpi_dict (k : KPI) : json :=
  JDict [("total_revenue", JNum (total_revenue k));
         ("total_orders", JInt (total_orders k));
         ("total_items", JInt (total_items k));
         ("aov", JNum (aov k))].

Definition product_record (e : ProductEntry) : json :=
  JDict [("product", json_of_key (p_product e));
         ("revenue", JNum (p_revenue e));
         ("units", JNum (p_units e));
         ("orders", JInt (p_orders e))].

Definition daily_record (e : DailyEntry) : json :=
  JDict [("day", JStr (d_day e));
         ("revenue", JNum (d_revenue e));
         ("orders", JInt (d_orders e));
         ("units", JNum (d_units e))].

(** [frame.to_dict(orient="records")]. *)
Definition top_products_records (s : Summary) : json :=
  JList (map product_record (top_products s)).

Definition daily_records (s : Summary) : json :=
  JList (map daily_record (daily s)).

(** ASCII white space, as removed by [str.strip()]. *)
Definition isspace (c : ascii) : bool :=
  existsb (Nat.eqb (nat_of_ascii c)) [9; 10; 11; 12; 13; 28; 29; 30; 31; 32]%nat.

(** [s.strip() == ""]. *)
Fixpoint strip_is_empty (s : string) : bool :=
  match s with
  | EmptyString => true
  | String c t => isspace c && strip_is_empty t
  end.

Inductive Response : Type :=
| RenderIndex (error : option string)
| Redirect (report_id : Z)
| RenderReport (kpi_v top_products_v daily_v : json) (chart : string)
               (meta_id : Z) (meta_created_at meta_original_filename : string)
| NotFound
| ServerError (e : exn).

Section Store.

(** Serialized JSON, and the two library functions on it. *)
Variable text : Type.
Variable dumps : json -> text.
Variable loads : text -> result json.

Variable to_datetime : cell -> option datetime.
Variable parse_numeric : string -> option Q.

(** A row of the table [reports]. *)
Record ReportRow : Type := mkReportRow {
  id : Z;
  created_at : string;
  original_filename : string;
  kpi_json : text;
  top_products_json : text;
  daily_json : text;
  chart_file : string
}.

(** The table [reports] with its AUTOINCREMENT counter. *)
Record Table : Type := mkTable {
  rows : list ReportRow;
  sqlite_sequence : Z
}.

(** The database file ([None]: the table was never created) and the
    directory of chart files. *)
Record World : Type := mkWorld {
  db : option Table;
  static : Directory
}.

Definition init_db (w : World) : World :=
  match db w with
  | Some _ => w
  | None => {| db := Some {| rows := []; sqlite_sequence := 0 |};
               static := static w |}
  end.

Definition max_rowid (l : list ReportRow) : Z :=
  fold_right (fun r m => Z.max (id r) m) 0 l.

(** [INSERT INTO reports ... ; commit]: returns the table and [lastrowid]. *)
Definition insert_report (t : Table) (mk : Z -> ReportRow) : Table * Z :=
  let new_id := Z.max (max_rowid (rows t)) (sqlite_sequence t) + 1 in
  ({| rows := (rows t ++ [mk new_id])%list; sqlite_sequence := new_id |}, new_id).

(** [SELECT * FROM reports WHERE id = ?] then [fetchone()]. *)
Definition select_by_id (t : Table) (report_id : Z) : option ReportRow :=
  find (fun r => id r =? report_id) (rows t).

Definition render_error (e : exn) : Response :=
  RenderIndex (Some ("Hata: " ++ exn_str e)).

(** The route [POST /report].  [now_chart] and [now_created] are the two
    readings of [datetime.now()]. *)
Definition report_create (file : option Upload)
  (now_chart now_created : datetime) (w : World) : World * Response :=
  match file with
  | None => (w, RenderIndex (Some "CSV seçmedin."))
  | Some f =>
    if (filename f =? "")%string || strip_is_empty (filename f)
    then (w, RenderIndex (Some "CSV seçmedin."))
    else
      match load_and_clean to_datetime parse_numeric f with
      | Raise e => (w, render_error e)
      | Ok [] => (w, RenderIndex (Some "Veri boş veya tamamen hatalı."))
      | Ok df =>
        match summarize df with
        | Raise e => (w, render_error e)
        | Ok summary =>
          let (chart_name, static') :=
            make_daily_revenue_chart df now_chart (static w) in
          match db w with
          | None =>
              ({| db := None; static := static' |},
               render_error (OperationalError "no such table: reports"))
          | Some t =>
              let (t', report_id) :=
                insert_report t (fun new_id =>
                  {| id := new_id;
                     created_at := isoformat_seconds now_created;
                     original_filename := filename f;
                     kpi_json := dumps (kpi_dict (kpi summary));
                     top_products_json := dumps (top_products_records summary);
                     daily_json := dumps (daily_records summary);
                     chart_file := chart_name |}) in
              ({| db := Some t'; static := static' |}, Redirect report_id)
          end
        end
      end
  end.

(** The route [GET /report/<int:report_id>]. *)
Definition report_view (report_id : Z) (w : World) : Response :=
  match db w with
  | None => ServerError (OperationalError "no such table: reports")
  | Some t =>
    match select_by_id t report_id with
    | None => NotFound
    | Some row =>
      let r :=
        k <- loads (kpi_json row) ;;
        tp <- loads (top_products_json row) ;;
        d <- loads (daily_json row) ;;
        Ok (RenderReport k tp d (chart_file row)
              (id row) (created_at row) (original_filename row)) in
      match r with
      | Ok resp => resp
      | Raise e => ServerError e
      end
    end
  end.

End Store.

Arguments id {text} _.
Arguments created_at {text} _.
Arguments original_filename {text} _.
Arguments kpi_json {text} _.
Arguments top_products_json {text} _.
Arguments daily_json {text} _.
Arguments chart_file {text} _.
Arguments rows {text} _.
Arguments sqlite_sequence {text} _.
Arguments db {text} _.
Arguments static {text} _.
Arguments mkWorld {text} _ _.
Arguments mkTable {text} _ _.
Arguments mkReportRow {text} _ _ _ _ _ _ _.

(* ------------------------------------------------------------------ *)
(** ** Concrete inputs *)

Definition digit_value (c : ascii) : option Z :=
  let n := nat_of_ascii c in
  if (48 <=? n)%nat && (n <=? 57)%nat then Some (Z.of_nat (n - 48)) else None.

Definition number2 (a b : ascii) : option Z :=
  match digit_value a, digit_value b with
  | Some x, Some y => Some (10 * x + y)
  | _, _ => None
  end.

(** A [to_datetime] for cells holding ISO calendar dates [YYYY-MM-DD]. *)
Definition to_datetime_iso (c : cell) : option datetime :=
  match c with
  | Str (String y1 (String y2 (String y3 (String y4 (String "-"
      (String m1 (String m2 (String "-" (String d1 (String d2
        EmptyString)))))))))) =>
      match number2 y1 y2, number2 y3 y4, number2 m1 m2, number2 d1 d2 with
      | Some yh, Some yl, Some m, Some d =>
          if (1 <=? m) && (m <=? 12) && (1 <=? d) && (d <=? 31)
          then Some (mkdatetime (mkdate (100 * yh + yl) m d) 0 0 0 0)
          else None
      | _, _, _, _ => None
      end
  | _ => None
  end.

Definition parse_numeric_none (s : string) : option Q := None.

Definition all_columns : list string :=
  ["date"; "order_id"; "product"; "quantity"; "unit_price"].

(** Scenario A of the specification. *)
Definition scenario_A : DataFrame :=
  {| columns := all_columns;
     data :=
       [ [Str "2024-01-01"; Str "O1"; Str "Widget"; Num 2; Num 10];
         [Str "2024-01-01"; Str "O1"; Str "Gadget"; Num 1; Num 5];
         [Str "2024-01-02"; Str "O2"; Str "Widget"; Num (-1); Num 10] ] |}.

Definition jan01 : datetime := mkdatetime (mkdate 2024 1 1) 0 0 0 0.

Definition scenario_A_clean : list Row :=
  [ mkRow jan01 (KStr "O1") (KStr "Widget") 2 10 20;
    mkRow jan01 (KStr "O1") (KStr "Gadget") 1 5 5 ].

Definition scenario_A_summary : Summary :=
  {| kpi := {| total_revenue := 25; total_orders := 1;
               total_items := 3; aov := 25 |};
     top_products :=
       [ mkProductEntry (KStr "Widget") 20 2 1;
         mkProductEntry (KStr "Gadget") 5 1 1 ];
     daily := [ mkDailyEntry "2024-01-01" 25 1 3 ] |}.

Definition no_unit_price : DataFrame :=
  {| columns := ["date"; "order_id"; "product"; "quantity"];
     data := [ [Str "2024-01-01"; Str "O1"; Str "Widget"; Num 2] ] |}.

(** A table whose only row has the quantity 3/2. *)
Definition fractional : DataFrame :=
  {| columns := all_columns;
     data := [ [Str "2024-01-01"; Str "O1"; Str "Widget"; Num (3 # 2); Num 1] ] |}.

Definition fractional_clean : list Row :=
  [ mkRow jan01 (KStr "O1") (KStr "Widget") (3 # 2) 1 (3 # 2) ].

(** Scenario C of the specification: every quantity is zero. *)
Definition scenario_C : DataFrame :=
  {| columns := all_columns;
     data :=
       [ [Str "2024-01-01"; Str "O1"; Str "Widget"; Num 0; Num 10];
         [Str "2024-01-02"; Str "O2"; Str "Gadget"; Num 0; Num 5] ] |}.

Definition upload_A : Upload := mkUpload "sales.csv" (Ok scenario_A).
Definition upload_A_head : Upload :=
  mkUpload "sales.csv" (Ok (mkDataFrame all_columns (firstn 2 (data scenario_A)))).
Definition upload_C : Upload := mkUpload "zero.csv" (Ok scenario_C).
Definition upload_fractional : Upload := mkUpload "half.csv" (Ok fractional).
Definition upload_no_unit_price : Upload :=
  mkUpload "short.csv" (Ok no_unit_price).

(** Three clock readings: the first two within one second. *)
Definition clock_a : datetime := mkdatetime (mkdate 2024 1 1) 12 0 0 1.
Definition clock_b : datetime := mkdatetime (mkdate 2024 1 1) 12 0 0 2.
Definition clock_c : datetime := mkdatetime (mkdate 2024 1 1) 12 0 1 0.

(** The store after [init_db], with no report and no chart; its JSON
    columns hold the values themselves. *)
Definition empty_world : World json :=
  init_db json (mkWorld None []).

Definition empty_message : string := "Veri boş veya tamamen hatalı.".

(* ------------------------------------------------------------------ *)
(** ** Specification-level reading of the cleaning rules (section 4.1) *)

(** A raw row is accepted, and [out] is its cleaned form: the date parses,
    both numbers coerce, the five fields are present, the quantity is
    positive and the unit price is not negative. *)
Definition spec_row_accepted (to_datetime : cell -> option datetime)
  (parse_numeric : string -> option Q) (cols : list string)
  (r : list cell) (out : Row) : Prop :=
  exists d o p q u,
    to_datetime (get cols "date" r) = Some d
    /\ key_of (get cols "order_id" r) = Some o
    /\ key_of (get cols "product" r) = Some p
    /\ to_numeric parse_numeric (get cols "quantity" r) = Some q
    /\ to_numeric parse_numeric (get cols "unit_price" r) = Some u
    /\ (0 < q)%Q /\ (0 <= u)%Q
    /\ out = mkRow d o p q u (q * u)%Q.

(** The cleaned frame of a list of raw rows: every accepted row, once, in
    the order of the input; every other row left out. *)
Inductive spec_clean (to_datetime : cell -> option datetime)
  (parse_numeric : string -> option Q) (cols : list string)
  : list (list cell) -> list Row -> Prop :=
| spec_clean_nil : spec_clean to_datetime parse_numeric cols [] []
| spec_clean_keep r rs out outs :
    spec_row_accepted to_datetime parse_numeric cols r out ->
    spec_clean to_datetime parse_numeric cols rs outs ->
    spec_clean to_datetime parse_numeric cols (r :: rs) (out :: outs)
| spec_clean_drop r rs outs :
    (forall out, ~ spec_row_accepted to_datetime parse_numeric cols r out) ->
    spec_clean to_datetime parse_numeric cols rs outs ->
    spec_clean to_datetime parse_numeric cols (r :: rs) outs.

(** Order of the ranking: revenue descending, then units descending. *)
Definition rank_ge (a b : ProductEntry) : Prop :=
  (p_revenue b < p_revenue a)%Q
  \/ (p_revenue a == p_revenue b /\ p_units b <= p_units a)%Q.

(** Calendar order on days, strict. *)
Definition date_lt (a b : date) : Prop :=
  year a < year b
  \/ (year a = year b /\ (month a < month b
                          \/ (month a = month b /\ day a < day b))).

Definition date_gt (a b : date) : Prop := date_lt b a.

(* ------------------------------------------------------------------ *)
(** ** The route [GET /history] and the state of the table *)

(** A row of [SELECT id, created_at, original_filename], as a dict. *)
Record HistoryEntry : Type := mkHistoryEntry {
  h_id : Z;
  h_created_at : string;
  h_original_filename : string
}.

Inductive HistoryResponse : Type :=
| RenderHistory (reports : list HistoryEntry)
| HistoryError (e : exn).

Definition history_entry {text} (r : ReportRow text) : HistoryEntry :=
  {| h_id := id r;
     h_created_at := created_at r;
     h_original_filename := original_filename r |}.

(** Row order of [ORDER BY id DESC]. *)
Definition id_geb {text} (a b : ReportRow text) : bool := id b <=? id a.

(** The route [GET /history]: the 50 newest reports, newest first. *)
Definition history {text} (w : World text) : HistoryResponse :=
  match db w with
  | None => HistoryError (OperationalError "no such table: reports")
  | Some t =>
      RenderHistory (map history_entry (firstn 50 (sort id_geb (rows t))))
  end.

(** What the primary key with AUTOINCREMENT maintains: identifiers are
    positive, pairwise distinct and not above the counter. *)
Definition table_ok {text} (t : Table text) : Prop :=
  NoDup (map id (rows t))
  /\ Forall (fun r => 0 < id r <= sqlite_sequence t) (rows t).

Definition world_ok {text} (w : World text) : Prop :=
  match db w with
  | None => True
  | Some t => table_ok t
  end.

(** A point of the chart: a day and the revenue of its rows. *)
Definition day_point (df : list Row) (d : date) : date * Q :=
  (d, Qsum (map revenue (day_group df d))).

(** Scenario A with its columns in another order and a column more. *)
Definition scenario_A_wide : DataFrame :=
  {| columns := ["note"; "unit_price"; "quantity"; "product"; "order_id"; "date"];
     data :=
       [ [Str "first"; Num 10; Num 2; Str "Widget"; Str "O1"; Str "2024-01-01"];
         [NaN; Num 5; Num 1; Str "Gadget"; Str "O1"; Str "2024-01-01"];
         [Str "back"; Num 10; Num (-1); Str "Widget"; Str "O2"; Str "2024-01-02"] ] |}.

Definition upload_A_wide : Upload := mkUpload "wide.csv" (Ok scenario_A_wide).

Definition upload_A_tail : Upload :=
  mkUpload "sales.csv" (Ok (mkDataFrame all_columns (skipn 2 (data scenario_A)))).

(** [json.dumps] and [json.loads] of a store whose JSON columns hold the
    values themselves. *)
Definition dumps_id (v : json) : json := v.
Definition loads_id (v : json) : result json := Ok v.

(** A store on which [init_db] never ran. *)
Definition no_table_world : World json := mkWorld None [].

(** The store after Scenario A was uploaded to the empty store. *)
Definition world_one : World json :=
  fst (report_create json dumps_id to_datetime_iso parse_numeric_none
         (Some upload_A) clock_a clock_c empty_world).

Definition table_one : Table json :=
  match db world_one with
  | Some t => t
  | None => mkTable [] 0
  end.

(** The store after a second upload. *)
Definition world_two : World json :=
  fst (report_create json dumps_id to_datetime_iso parse_numeric_none
         (Some upload_fractional) clock_c clock_c world_one).

Definition table_two : Table json :=
  match db world_two with
  | Some t => t
  | None => mkTable [] 0
  end.

(* ================================================================== *)
(** * Properties *)

(* ------------------------------------------------------------------ *)
(** ** Sorting and truncation *)

Section Sorting.

Context {A : Type} (leb : A -> A -> bool).

Lemma insert_perm (x : A) (l : list A) : Permutation (insert leb x l) (x :: l).
Proof.
  induction l as [|y t IH]; simpl.
  - apply Permutation_refl.
  - destruct (leb x y).
    + apply Permutation_refl.
    + eapply perm_trans; [apply perm_skip, IH | apply perm_swap].
Qed.

Lemma sort_perm (l : list A) : Permutation (sort leb l) l.
Proof.
  induction l as [|x t IH]; simpl.
  - constructor.
  - eapply perm_trans; [apply insert_perm | apply perm_skip, IH].
Qed.

Lemma sort_In (x : A) (l : list A) : In x (sort leb l) <-> In x l.
Proof.
  split; apply Permutation_in;
    [apply sort_perm | apply Permutation_sym, sort_perm].
Qed.

Lemma sort_length (l : list A) : List.length (sort leb l) = List.length l.
Proof. apply Permutation_length, sort_perm. Qed.

Hypothesis leb_total : forall a b, leb a b = false -> leb b a = true.
Hypothesis leb_trans :
  forall a b c, leb a b = true -> leb b c = true -> leb a c = true.

Let R (a b : A) : Prop := leb a b = true.

Lemma insert_sorted (x : A) (l : list A) :
  StronglySorted R l -> StronglySorted R (insert leb x l).
Proof.
  induction 1 as [|y t Hs IH Hall]; simpl.
  - repeat constructor.
  - destruct (leb x y) eqn:E.
    + constructor; [constructor; assumption|].
      constructor; [exact E|].
      rewrite Forall_forall in *. intros z Hz.
      apply leb_trans with y; [exact E | apply Hall, Hz].
    + constructor; [exact IH|].
      rewrite Forall_forall in *. intros z Hz.
      apply (Permutation_in _ (insert_perm x t)) in Hz.
      destruct Hz as [<-|Hz]; [apply leb_total, E | apply Hall, Hz].
Qed.

Lemma sort_sorted (l : list A) : StronglySorted R (sort leb l).
Proof.
  induction l as [|x t IH]; simpl; [constructor | apply insert_sorted, IH].
Qed.

End Sorting.

Lemma StronglySorted_app_l {A} (R : A -> A -> Prop) (l1 l2 : list A) :
  StronglySorted R (l1 ++ l2)%list -> StronglySorted R l1.
Proof.
  induction l1 as [|x t IH]; simpl; intros H.
  - constructor.
  - inversion H as [|? ? Hs Hall]; subst. constructor.
    + apply IH, Hs.
    + apply Forall_app in Hall. apply Hall.
Qed.

Lemma StronglySorted_firstn {A} (R : A -> A -> Prop) (n : nat) (l : list A) :
  StronglySorted R l -> StronglySorted R (firstn n l).
Proof.
  intros H. rewrite <- (firstn_skipn n l) in H.
  exact (StronglySorted_app_l _ _ _ H).
Qed.

Lemma StronglySorted_impl {A} (R S : A -> A -> Prop) (l : list A) :
  (forall a b, In a l -> In b l -> R a b -> S a b) ->
  StronglySorted R l -> StronglySorted S l.
Proof.
  intros HRS H. induction H as [|x t Hs IH Hall].
  - constructor.
  - constructor.
    + apply IH. intros a b Ha Hb. apply HRS; right; assumption.
    + rewrite Forall_forall in *. intros z Hz.
      apply HRS; [left; reflexivity | right; exact Hz | apply Hall, Hz].
Qed.

Lemma In_firstn {A} (n : nat) (x : A) (l : list A) :
  In x (firstn n l) -> In x l.
Proof.
  intros H. rewrite <- (firstn_skipn n l). apply in_or_app. left. exact H.
Qed.

Lemma StronglySorted_map {A B} (f : A -> B) (R : B -> B -> Prop) (l : list A) :
  StronglySorted (fun a b => R (f a) (f b)) l -> StronglySorted R (map f l).
Proof.
  induction 1 as [|x t Hs IH Hall]; simpl; constructor.
  - exact IH.
  - rewrite Forall_forall in *. intros z Hz.
    apply in_map_iff in Hz. destruct Hz as [y [<- Hy]]. apply Hall, Hy.
Qed.

(* ------------------------------------------------------------------ *)
(** ** Cleaning *)

Lemma mem_string_In (c : string) (l : list string) :
  mem_string c l = true <-> In c l.
Proof.
  unfold mem_string. rewrite existsb_exists. split.
  - intros [x [Hx E]]. apply String.eqb_eq in E. subst. exact Hx.
  - intros H. exists c. split; [exact H | apply String.eqb_refl].
Qed.

Lemma missing_cols_In (cols : list string) (c : string) :
  In c (missing_cols cols) <-> In c REQUIRED_COLS /\ ~ In c cols.
Proof.
  unfold missing_cols. rewrite filter_In, <- (mem_string_In c cols).
  destruct (mem_string c cols); cbn [negb]; split; intros [H1 H2];
    split; try assumption; try discriminate; try reflexivity.
  elim H2; reflexivity.
Qed.

Lemma missing_cols_nil (cols : list string) :
  (forall c, In c REQUIRED_COLS -> In c cols) -> missing_cols cols = [].
Proof.
  intros H. destruct (missing_cols cols) as [|c t] eqn:E; [reflexivity|].
  assert (Hc : In c (missing_cols cols)) by (rewrite E; left; reflexivity).
  apply missing_cols_In in Hc. destruct Hc as [Hr Hn]. elim Hn. apply H, Hr.
Qed.

Lemma Qlt_bool_iff (a b : Q) : Qlt_bool a b = true <-> (a < b)%Q.
Proof.
  unfold Qlt_bool. rewrite negb_true_iff. split.
  - intros H. apply Qnot_le_lt. intros Hle.
    apply Qle_bool_iff in Hle. congruence.
  - intros H. destruct (Qle_bool b a) eqn:E; [|reflexivity].
    apply Qle_bool_iff in E. elim (Qlt_not_le _ _ H E).
Qed.

Section CleanerFacts.

Variable to_datetime : cell -> option datetime.
Variable parse_numeric : string -> option Q.
Variable cols : list string.

Lemma dropna_row_Some (r : list cell) (r0 : Row0) :
  dropna_row (coerce to_datetime parse_numeric cols r) = Some r0 <->
  to_datetime (get cols "date" r) = Some (r0_date r0)
  /\ key_of (get cols "order_id" r) = Some (r0_order_id r0)
  /\ key_of (get cols "product" r) = Some (r0_product r0)
  /\ to_numeric parse_numeric (get cols "quantity" r) = Some (r0_quantity r0)
  /\ to_numeric parse_numeric (get cols "unit_price" r) = Some (r0_unit_price r0).
Proof.
  unfold dropna_row, coerce; simpl.
  destruct (to_datetime (get cols "date" r)) as [d|];
    destruct (key_of (get cols "order_id" r)) as [o|];
    destruct (key_of (get cols "product" r)) as [p|];
    destruct (to_numeric parse_numeric (get cols "quantity" r)) as [q|];
    destruct (to_numeric parse_numeric (get cols "unit_price" r)) as [u|];
    destruct r0 as [d' o' p' q' u']; simpl;
    split; intros H; try discriminate;
    try (intuition discriminate).
  - injection H as -> -> -> -> ->. repeat split.
  - destruct H as (H1 & H2 & H3 & H4 & H5). congruence.
Qed.

Lemma accepted_iff (r : list cell) (out : Row) :
  spec_row_accepted to_datetime parse_numeric cols r out <->
  exists r0,
    dropna_row (coerce to_datetime parse_numeric cols r) = Some r0
    /\ Qlt_bool 0 (r0_quantity r0) = true
    /\ Qle_bool 0 (r0_unit_price r0) = true
    /\ out = add_revenue r0.
Proof.
  split.
  - intros (d & o & p & q & u & H1 & H2 & H3 & H4 & H5 & Hq & Hu & ->).
    exists (mkRow0 d o p q u). rewrite dropna_row_Some. simpl.
    rewrite Qlt_bool_iff, Qle_bool_iff. repeat split; assumption.
  - intros (r0 & H & Hq & Hu & ->).
    apply dropna_row_Some in H. destruct H as (H1 & H2 & H3 & H4 & H5).
    apply Qlt_bool_iff in Hq. apply Qle_bool_iff in Hu.
    exists (r0_date r0), (r0_order_id r0), (r0_product r0),
           (r0_quantity r0), (r0_unit_price r0).
    repeat split; assumption.
Qed.

Lemma clean_rows_spec (raw : list (list cell)) :
  spec_clean to_datetime parse_numeric cols raw
    (map add_revenue
       (filter (fun r => Qle_bool 0 (r0_unit_price r))
          (filter (fun r => Qlt_bool 0 (r0_quantity r))
             (dropna (map (coerce to_datetime parse_numeric cols) raw))))).
Proof.
  induction raw as [|r rs IH]; simpl.
  - constructor.
  - destruct (dropna_row (coerce to_datetime parse_numeric cols r))
      as [r0|] eqn:E; simpl.
    + destruct (Qlt_bool 0 (r0_quantity r0)) eqn:Eq; simpl.
      * destruct (Qle_bool 0 (r0_unit_price r0)) eqn:Eu; simpl.
        -- apply spec_clean_keep; [|exact IH].
           apply accepted_iff. exists r0. repeat split; assumption.
        -- apply spec_clean_drop; [|exact IH].
           intros out Ha. apply accepted_iff in Ha.
           destruct Ha as (r1 & H1 & _ & H3 & _). congruence.
      * apply spec_clean_drop; [|exact IH].
        intros out Ha. apply accepted_iff in Ha.
        destruct Ha as (r1 & H1 & H2 & _). congruence.
    + apply spec_clean_drop; [|exact IH].
      intros out Ha. apply accepted_iff in Ha.
      destruct Ha as (r1 & H1 & _). congruence.
Qed.

Lemma clean_rows_invariant (l : list Row0) :
  Forall (fun r => (0 < quantity r)%Q /\ (0 <= unit_price r)%Q
                   /\ revenue r = (quantity r * unit_price r)%Q)
    (map add_revenue
       (filter (fun r => Qle_bool 0 (r0_unit_price r))
          (filter (fun r => Qlt_bool 0 (r0_quantity r)) l))).
Proof.
  apply Forall_forall. intros x Hx.
  apply in_map_iff in Hx. destruct Hx as [r0 [<- Hr]].
  apply filter_In in Hr. destruct Hr as [Hr Hu].
  apply filter_In in Hr. destruct Hr as [_ Hq].
  apply Qlt_bool_iff in Hq. apply Qle_bool_iff in Hu.
  simpl. repeat split; assumption.
Qed.

End CleanerFacts.

Lemma load_and_clean_frame (to_datetime : cell -> option datetime)
  (parse_numeric : string -> option Q) (f : Upload) (df : DataFrame) :
  read_csv f = Ok df ->
  load_and_clean to_datetime parse_numeric f
  = match missing_cols (columns df) with
    | _ :: _ =>
        Raise (ValueError ("Eksik sütun(lar): "
                 ++ String.concat ", " (sort String.leb (missing_cols (columns df)))))
    | [] =>
        Ok (map add_revenue
              (filter (fun r => Qle_bool 0 (r0_unit_price r))
                 (filter (fun r => Qlt_bool 0 (r0_quantity r))
                    (dropna (map (coerce to_datetime parse_numeric (columns df))
                                 (data df))))))
    end.
Proof.
  intros H. unfold load_and_clean. rewrite H. cbn [bind].
  destruct (missing_cols (columns df)); reflexivity.
Qed.

(** C1 (Scenario A).  Cleaning the three rows keeps the first two and drops
    the third, whose quantity is not positive; [summarize] on the two
    remaining rows gives total revenue 25, one order, three items, average
    order value 25, the ranking Widget (20, 2, 1) then Gadget (5, 1, 1), and
    the single day 2024-01-01 (25, 1, 3). *)
Theorem C1_scenario_A (parse_numeric : string -> option Q) :
  load_and_clean to_datetime_iso parse_numeric upload_A = Ok scenario_A_clean
  /\ load_and_clean to_datetime_iso parse_numeric upload_A_head
     = Ok scenario_A_clean
  /\ to_numeric parse_numeric
       (get all_columns "quantity" (nth 2 (data scenario_A) [])) = Some (-1)%Q
  /\ summarize scenario_A_clean = Ok scenario_A_summary.
Proof.
  repeat split; vm_compute; reflexivity.
Qed.



(** The difference with [REQUIRED_COLS] is already in sorted order, so
    [sorted(...)] leaves it as it is. *)
Lemma sorted_missing_cols (cols : list string) :
  sort String.leb (missing_cols cols) = missing_cols cols
  /\ StronglySorted (fun a b => String.ltb a b = true) (missing_cols cols).
Proof.
  unfold missing_cols, REQUIRED_COLS. cbn [filter].
  destruct (mem_string "date" cols), (mem_string "order_id" cols),
    (mem_string "product" cols), (mem_string "quantity" cols),
    (mem_string "unit_price" cols); cbn [negb];
    (split; [vm_compute; reflexivity
            | repeat (constructor; try (vm_compute; reflexivity))]).
Qed.

Lemma load_and_clean_missing (to_datetime : cell -> option datetime)
  (parse_numeric : string -> option Q) (f : Upload) (df : DataFrame) :
  read_csv f = Ok df ->
  missing_cols (columns df) <> [] ->
  load_and_clean to_datetime parse_numeric f
  = Raise (ValueError ("Eksik sütun(lar): "
                       ++ String.concat ", " (missing_cols (columns df)))).
Proof.
  intros Hread Hne. rewrite (load_and_clean_frame _ _ _ _ Hread).
  destruct (sorted_missing_cols (columns df)) as [Hsort _].
  destruct (missing_cols (columns df)) as [|m ms]; [elim Hne; reflexivity|].
  rewrite Hsort. reflexivity.
Qed.

Lemma missing_cols_nonempty (cols : list string) :
  (exists c, In c REQUIRED_COLS /\ ~ In c cols) -> missing_cols cols <> [].
Proof.
  intros [c [Hc Hn]] E.
  assert (Hin : In c (missing_cols cols))
    by (apply missing_cols_In; split; assumption).
  rewrite E in Hin. destruct Hin.
Qed.

(** C3.  When a required column is absent, [load_and_clean] raises the
    [ValueError] whose message is the fixed prefix followed by the missing
    column names, sorted and joined by a comma and a space; the missing
    names are exactly the required names not among the columns; and the
    outcome is the same whatever the rows hold and whatever the coercions
    would return, the check standing before all row processing. *)
Theorem C3_missing_columns
  (to_datetime to_datetime' : cell -> option datetime)
  (parse_numeric parse_numeric' : string -> option Q)
  (f f' : Upload) (df : DataFrame) (rows' : list (list cell)) :
  read_csv f = Ok df ->
  read_csv f' = Ok (mkDataFrame (columns df) rows') ->
  (exists c, In c REQUIRED_COLS /\ ~ In c (columns df)) ->
  exists missing,
    load_and_clean to_datetime parse_numeric f
    = Raise (ValueError ("Eksik sütun(lar): " ++ String.concat ", " missing))
    /\ (forall c, In c missing <-> In c REQUIRED_COLS /\ ~ In c (columns df))
    /\ StronglySorted (fun a b => String.ltb a b = true) missing
    /\ load_and_clean to_datetime' parse_numeric' f'
       = load_and_clean to_datetime parse_numeric f.
Proof.
  intros Hread Hread' Hmiss.
  assert (Hne := missing_cols_nonempty _ Hmiss).
  exists (missing_cols (columns df)).
  split; [apply (load_and_clean_missing _ _ _ _ Hread Hne)|].
  split; [intros c'; apply missing_cols_In|].
  split; [apply sorted_missing_cols|].
  rewrite (load_and_clean_missing _ _ _ _ Hread Hne).
  apply (load_and_clean_missing _ _ _ _ Hread'). exact Hne.
Qed.

Lemma C3_missing_columns_witness :
  exists missing,
    load_and_clean to_datetime_iso parse_numeric_none upload_no_unit_price
    = Raise (ValueError ("Eksik sütun(lar): " ++ String.concat ", " missing))
    /\ (forall c, In c missing
                  <-> In c REQUIRED_COLS /\ ~ In c (columns no_unit_price))
    /\ StronglySorted (fun a b => String.ltb a b = true) missing
    /\ load_and_clean (fun _ => None) (fun _ => Some 1%Q)
         (mkUpload "other.csv" (Ok (mkDataFrame (columns no_unit_price) [])))
       = load_and_clean to_datetime_iso parse_numeric_none upload_no_unit_price.
Proof.
  apply (C3_missing_columns to_datetime_iso (fun _ => None)
           parse_numeric_none (fun _ => Some 1%Q)
           upload_no_unit_price
           (mkUpload "other.csv" (Ok (mkDataFrame (columns no_unit_price) [])))
           no_unit_price []).
  - reflexivity.
  - reflexivity.
  - exists "unit_price". split.
    + simpl. intuition.
    + simpl. intros H.
      repeat (destruct H as [H|H]; [discriminate H|]). exact H.
Defined.

(* ------------------------------------------------------------------ *)
(** ** Headline numbers *)

Lemma nunique_bounds {A} (dec : forall a b : A, {a = b} + {a <> b})
  (l : list A) : 0 <= nunique dec l <= Z.of_nat (List.length l).
Proof.
  unfold nunique. split; [apply Nat2Z.is_nonneg|].
  apply Nat2Z.inj_le. apply NoDup_incl_length.
  - apply NoDup_nodup.
  - intros x Hx. apply nodup_In in Hx. exact Hx.
Qed.

Lemma nunique_zero {A} (dec : forall a b : A, {a = b} + {a <> b})
  (l : list A) : nunique dec l = 0 <-> l = [].
Proof.
  split.
  - unfold nunique. intros H. destruct l as [|x t]; [reflexivity|].
    assert (Hx : In x (nodup dec (x :: t)))
      by (apply nodup_In; left; reflexivity).
    destruct (nodup dec (x :: t)); [destruct Hx | discriminate H].
  - intros ->. reflexivity.
Qed.

Lemma summarize_total (df : list Row) :
  exists a,
    summarize df
    = Ok {| kpi := {| total_revenue := Qsum (map revenue df);
                      total_orders := nunique key_eq_dec (map order_id df);
                      total_items := py_int (Qsum (map quantity df));
                      aov := a |};
            top_products := top_products_frame df;
            daily := map astype_str (daily_frame df) |}
    /\ a = (if nunique key_eq_dec (map order_id df) =? 0 then 0%Q
            else (Qsum (map revenue df)
                  / inject_Z (nunique key_eq_dec (map order_id df)))%Q).
Proof.
  unfold summarize, py_truediv.
  destruct (nunique key_eq_dec (map order_id df) =? 0);
    cbn [bind]; eexists; split; reflexivity.
Qed.


Lemma Qsum_nonneg (l : list Q) :
  Forall (fun q => (0 <= q)%Q) l -> (0 <= Qsum l)%Q.
Proof.
  induction 1 as [|q t Hq _ IH]; simpl.
  - apply Qle_refl.
  - setoid_replace 0%Q with (0 + 0)%Q by reflexivity.
    apply Qplus_le_compat; assumption.
Qed.

Lemma py_int_floor (x : Q) : (0 <= x)%Q -> py_int x = Qfloor x.
Proof.
  destruct x as [n d]. unfold py_int, Qfloor, Qle. simpl. intros H.
  apply Z.quot_div_nonneg; lia.
Qed.

Lemma py_int_inject_Z (x : Q) (n : Z) : (x == inject_Z n)%Q -> py_int x = n.
Proof.
  destruct x as [a d]. unfold py_int, Qeq. simpl. intros H.
  rewrite Z.mul_1_r in H. subst a. apply Z.quot_mul. discriminate.
Qed.




(* ------------------------------------------------------------------ *)
(** ** Grouping, ranking and truncation *)

Lemma group_keys_perm {A} (dec : forall a b : A, {a = b} + {a <> b})
  (leb : A -> A -> bool) (l : list A) :
  Permutation (group_keys dec leb l) (nodup dec l).
Proof. apply sort_perm. Qed.

Lemma group_keys_In {A} (dec : forall a b : A, {a = b} + {a <> b})
  (leb : A -> A -> bool) (l : list A) (x : A) :
  In x (group_keys dec leb l) <-> In x l.
Proof.
  unfold group_keys. rewrite sort_In. apply nodup_In.
Qed.

Lemma group_keys_NoDup {A} (dec : forall a b : A, {a = b} + {a <> b})
  (leb : A -> A -> bool) (l : list A) :
  NoDup (group_keys dec leb l).
Proof.
  apply (Permutation_NoDup (Permutation_sym (group_keys_perm dec leb l))).
  apply NoDup_nodup.
Qed.

Lemma NoDup_firstn_of {A} (n : nat) (l : list A) :
  NoDup l -> NoDup (firstn n l).
Proof.
  intros H. rewrite <- (firstn_skipn n l) in H.
  exact (NoDup_app_remove_r _ _ H).
Qed.

Lemma firstn_cut {A} (n : nat) (l : list A) :
  skipn n l = [] \/ List.length (firstn n l) = n.
Proof.
  destruct (Nat.le_gt_cases (List.length l) n) as [H|H].
  - left. apply skipn_all2, H.
  - right. apply firstn_length_le. lia.
Qed.

Lemma product_group_In (df : list Row) (p : key) (r : Row) :
  In r (product_group df p) <-> In r df /\ product r = p.
Proof.
  unfold product_group, key_eqb. rewrite filter_In.
  destruct (key_eq_dec (product r) p); intuition congruence.
Qed.

Lemma day_group_In (df : list Row) (d : date) (r : Row) :
  In r (day_group df d) <-> In r df /\ day_of r = d.
Proof.
  unfold day_group, date_eq_b. rewrite filter_In.
  destruct (date_eq_dec (day_of r) d); intuition congruence.
Qed.

Lemma rank_geb_iff (a b : ProductEntry) : rank_geb a b = true <-> rank_ge a b.
Proof.
  unfold rank_geb, rank_ge.
  rewrite orb_true_iff, andb_true_iff, Qlt_bool_iff, Qeq_bool_iff,
    Qle_bool_iff. reflexivity.
Qed.

Lemma rank_ge_total (a b : ProductEntry) : ~ rank_ge a b -> rank_ge b a.
Proof.
  unfold rank_ge. intros H.
  destruct (Q_dec (p_revenue a) (p_revenue b)) as [[Hlt|Hgt]|Heq].
  - left. exact Hlt.
  - elim H. left. exact Hgt.
  - destruct (Qlt_le_dec (p_units a) (p_units b)) as [Hu|Hu].
    + right. split; [symmetry; exact Heq | apply Qlt_le_weak, Hu].
    + elim H. right. split; assumption.
Qed.

Lemma rank_ge_trans (a b c : ProductEntry) :
  rank_ge a b -> rank_ge b c -> rank_ge a c.
Proof.
  unfold rank_ge. intros [H1|[H1 H1']] [H2|[H2 H2']].
  - left. eapply Qlt_trans; eassumption.
  - left. rewrite <- H2. exact H1.
  - left. rewrite H1. exact H2.
  - right. split.
    + rewrite H1. exact H2.
    + eapply Qle_trans; eassumption.
Qed.

Lemma rank_geb_total (a b : ProductEntry) :
  rank_geb a b = false -> rank_geb b a = true.
Proof.
  intros H. apply rank_geb_iff, rank_ge_total. intros Hab.
  apply rank_geb_iff in Hab. congruence.
Qed.

Lemma rank_geb_trans (a b c : ProductEntry) :
  rank_geb a b = true -> rank_geb b c = true -> rank_geb a c = true.
Proof.
  rewrite !rank_geb_iff. apply rank_ge_trans.
Qed.

Lemma ranked_sorted (l : list ProductEntry) :
  StronglySorted rank_ge (sort rank_geb l).
Proof.
  apply StronglySorted_impl with (R := fun a b => rank_geb a b = true).
  - intros a b _ _. apply rank_geb_iff.
  - apply sort_sorted; [apply rank_geb_total | apply rank_geb_trans].
Qed.

Lemma groupby_product_keys (df : list Row) :
  map p_product (groupby_product df)
  = group_keys key_eq_dec key_leb (map product df).
Proof.
  unfold groupby_product. rewrite map_map. apply map_id.
Qed.


(* ------------------------------------------------------------------ *)
(** ** Daily rollup *)

Ltac bool_to_Z :=
  repeat match goal with
  | H : _ && _ = true |- _ => apply andb_true_iff in H; destruct H
  | H : _ || _ = true |- _ => apply orb_true_iff in H; destruct H
  | H : _ && _ = false |- _ => apply andb_false_iff in H; destruct H
  | H : _ || _ = false |- _ => apply orb_false_iff in H; destruct H
  | H : (_ <? _) = true |- _ => apply Z.ltb_lt in H
  | H : (_ <? _) = false |- _ => apply Z.ltb_ge in H
  | H : (_ =? _) = true |- _ => apply Z.eqb_eq in H
  | H : (_ =? _) = false |- _ => apply Z.eqb_neq in H
  | H : (_ <=? _) = true |- _ => apply Z.leb_le in H
  | H : (_ <=? _) = false |- _ => apply Z.leb_gt in H
  end.

Lemma date_leb_iff (a b : date) :
  date_leb a b = true <-> date_lt a b \/ a = b.
Proof.
  destruct a as [y m d], b as [y' m' d']. unfold date_leb, date_lt. simpl.
  split.
  - intros H. bool_to_Z; try (left; lia).
    destruct (Z.eq_dec d d'); [right; congruence | left; lia].
  - intros [H | H].
    + rewrite orb_true_iff, andb_true_iff, orb_true_iff, andb_true_iff,
        !Z.ltb_lt, !Z.eqb_eq, Z.leb_le. lia.
    + injection H as -> -> ->.
      rewrite !Z.eqb_refl, Z.leb_refl, !Z.ltb_irrefl. reflexivity.
Qed.

Lemma date_lt_trans (a b c : date) : date_lt a b -> date_lt b c -> date_lt a c.
Proof. unfold date_lt. lia. Qed.

Lemma date_lt_irrefl (a : date) : ~ date_lt a a.
Proof. unfold date_lt. lia. Qed.

Lemma date_lt_total (a b : date) : date_lt a b \/ a = b \/ date_lt b a.
Proof.
  destruct a as [y m d], b as [y' m' d']. unfold date_lt. simpl.
  destruct (Z.lt_trichotomy y y') as [H|[H|H]]; [lia| |lia].
  destruct (Z.lt_trichotomy m m') as [H1|[H1|H1]]; [lia| |lia].
  destruct (Z.lt_trichotomy d d') as [H2|[H2|H2]]; [lia| |lia].
  right. left. congruence.
Qed.

Lemma date_leb_total (a b : date) : date_leb a b = false -> date_leb b a = true.
Proof.
  intros H. apply date_leb_iff.
  destruct (date_lt_total a b) as [H1|[H1|H1]].
  - assert (date_leb a b = true) by (apply date_leb_iff; left; exact H1).
    congruence.
  - right. symmetry. exact H1.
  - left. exact H1.
Qed.

Lemma date_leb_trans (a b c : date) :
  date_leb a b = true -> date_leb b c = true -> date_leb a c = true.
Proof.
  rewrite !date_leb_iff. intros [H1|H1] [H2|H2]; subst; auto.
  left. eapply date_lt_trans; eassumption.
Qed.

Lemma StronglySorted_strict {A} (R : A -> A -> Prop) (l : list A) :
  StronglySorted R l -> NoDup l ->
  StronglySorted (fun a b => R a b /\ a <> b) l.
Proof.
  induction 1 as [|x t Hs IH Hall]; intros Hnd.
  - constructor.
  - inversion Hnd as [|? ? Hx Ht]; subst. constructor; [apply IH, Ht|].
    rewrite Forall_forall in *. intros z Hz. split; [apply Hall, Hz|].
    intros ->. apply Hx, Hz.
Qed.

Lemma days_sorted (l : list DailyAgg) :
  NoDup (map a_day l) ->
  StronglySorted date_gt (map a_day (sort day_geb l)).
Proof.
  intros Hnd.
  apply StronglySorted_impl
    with (R := fun a b => date_leb b a = true /\ a <> b).
  - intros a b _ _ [H Hne]. apply date_leb_iff in H.
    destruct H as [H | H]; [exact H | elim Hne; symmetry; exact H].
  - apply StronglySorted_strict.
    + apply StronglySorted_map. unfold day_geb.
      apply (sort_sorted (fun a b => date_leb (a_day b) (a_day a))).
      * intros a b. apply date_leb_total.
      * intros a b c H1 H2. eapply date_leb_trans; eassumption.
    + apply (Permutation_NoDup
               (Permutation_map a_day (Permutation_sym (sort_perm day_geb l)))).
      exact Hnd.
Qed.

Lemma Qsum_filter_orb {A} (f : A -> Q) (p q : A -> bool) (l : list A) :
  (forall x, In x l -> p x = true -> q x = false) ->
  (Qsum (map f (filter (fun x => p x || q x) l))
   == Qsum (map f (filter p l)) + Qsum (map f (filter q l)))%Q.
Proof.
  induction l as [|x t IH]; intros Hdis; simpl.
  - reflexivity.
  - assert (IH' := IH (fun y Hy => Hdis y (or_intror Hy))).
    destruct (p x) eqn:Ep; simpl.
    + rewrite (Hdis x (or_introl eq_refl) Ep). simpl. rewrite IH'.
      apply Qplus_assoc.
    + destruct (q x); simpl; rewrite IH'; [|reflexivity].
      rewrite !Qplus_assoc. apply Qplus_comp; [apply Qplus_comm | reflexivity].
Qed.

(** The per-day sums over a set of distinct days add up to the sum over
    the rows that fall on those days. *)
Lemma Qsum_day_groups (df : list Row) (days : list date) :
  NoDup days ->
  (Qsum (map (fun d => Qsum (map revenue (day_group df d))) days)
   == Qsum (map revenue
              (filter (fun r => existsb (date_eq_b (day_of r)) days) df)))%Q.
Proof.
  induction 1 as [|d t Hd Hnd IH]; simpl.
  - induction df as [|r rs IHr]; simpl; [reflexivity | exact IHr].
  - rewrite IH. symmetry.
    apply (Qsum_filter_orb revenue
             (fun r => date_eq_b (day_of r) d)
             (fun r => existsb (date_eq_b (day_of r)) t)).
    intros r _ Hr. unfold date_eq_b in Hr.
    destruct (date_eq_dec (day_of r) d) as [E|]; [|discriminate].
    destruct (existsb (date_eq_b (day_of r)) t) eqn:Ex; [|reflexivity].
    apply existsb_exists in Ex. destruct Ex as [d' [Hd' E']].
    unfold date_eq_b in E'.
    destruct (date_eq_dec (day_of r) d'); [|discriminate].
    elim Hd. congruence.
Qed.

Lemma Forall2_map_same {A B C} (P : B -> C -> Prop) (f : A -> B) (g : A -> C)
  (l : list A) :
  (forall x, In x l -> P (f x) (g x)) -> Forall2 P (map f l) (map g l).
Proof.
  induction l as [|x t IH]; intros H; simpl; constructor.
  - apply H. left. reflexivity.
  - apply IH. intros y Hy. apply H. right. exact Hy.
Qed.

Lemma groupby_day_keys (df : list Row) :
  map a_day (groupby_day df) = group_keys date_eq_dec date_leb (map day_of df).
Proof.
  unfold groupby_day. rewrite map_map. apply map_id.
Qed.

Lemma daily_sorted_facts (df : list Row) :
  let sorted := sort day_geb (groupby_day df) in
  StronglySorted date_gt (map a_day sorted)
  /\ (forall e, In e sorted -> e = daily_agg df (a_day e))
  /\ (forall d, In d (map a_day sorted)
                <-> exists r, In r df /\ dt_date (date_ r) = d).
Proof.
  intros sorted. split; [|split].
  - apply days_sorted. rewrite groupby_day_keys. apply group_keys_NoDup.
  - intros e He. apply sort_In in He. unfold groupby_day in He.
    apply in_map_iff in He. destruct He as [k [<- _]]. reflexivity.
  - intros d. unfold sorted.
    assert (Hp : Permutation (map a_day (sort day_geb (groupby_day df)))
                   (group_keys date_eq_dec date_leb (map day_of df))).
    { rewrite <- groupby_day_keys. apply Permutation_map, sort_perm. }
    split.
    + intros H. apply (Permutation_in _ Hp) in H.
      apply group_keys_In, in_map_iff in H.
      destruct H as [r [E Hr]]. exists r. split; assumption.
    + intros [r [Hr E]].
      apply (Permutation_in _ (Permutation_sym Hp)).
      apply group_keys_In, in_map_iff. exists r. split; assumption.
Qed.


(* ------------------------------------------------------------------ *)
(** ** Chart file names *)

Lemma digit_mod (a b : Z) : digit a = digit b -> a mod 10 = b mod 10.
Proof.
  unfold digit. intros H.
  assert (Ha := Z.mod_pos_bound a 10 ltac:(lia)).
  assert (Hb := Z.mod_pos_bound b 10 ltac:(lia)).
  apply (f_equal nat_of_ascii) in H.
  rewrite !nat_ascii_embedding in H by lia. lia.
Qed.

Lemma zfill2_inj (a b : Z) :
  0 <= a < 100 -> 0 <= b < 100 -> zfill2 a = zfill2 b -> a = b.
Proof.
  unfold zfill2. intros Ha Hb H. injection H as H1 H0.
  apply digit_mod in H1, H0.
  Z.div_mod_to_equations. lia.
Qed.

Lemma zfill4_inj (a b : Z) :
  0 <= a < 10000 -> 0 <= b < 10000 -> zfill4 a = zfill4 b -> a = b.
Proof.
  unfold zfill4, zfill2. intros Ha Hb H. injection H as H3 H2 H1 H0.
  apply digit_mod in H3, H2, H1, H0.
  Z.div_mod_to_equations. lia.
Qed.

Lemma zfill2_app (a b : Z) (s s' : string) :
  zfill2 a ++ s = zfill2 b ++ s' -> zfill2 a = zfill2 b /\ s = s'.
Proof.
  unfold zfill2. cbn [append]. intros H. injection H as H1 H0 Hs.
  split; congruence.
Qed.

Lemma zfill4_app (a b : Z) (s s' : string) :
  zfill4 a ++ s = zfill4 b ++ s' -> zfill4 a = zfill4 b /\ s = s'.
Proof.
  unfold zfill4, zfill2. cbn [append]. intros H.
  injection H as H3 H2 H1 H0 Hs. split; congruence.
Qed.

Lemma string_app_inv_head (p s s' : string) : p ++ s = p ++ s' -> s = s'.
Proof.
  induction p as [|c p IH]; cbn [append]; intros H; [exact H|].
  injection H as H. apply IH, H.
Qed.

Lemma string_app_assoc (a b c : string) : (a ++ b) ++ c = a ++ (b ++ c).
Proof.
  induction a as [|x a IH]; cbn [append]; [reflexivity | rewrite IH; reflexivity].
Qed.

Lemma strftime_stamp_inj (a b : datetime) :
  valid_datetime a -> valid_datetime b ->
  strftime_stamp a = strftime_stamp b -> same_second a b.
Proof.
  unfold valid_datetime, valid_date, same_second, strftime_stamp.
  destruct a as [[y m d] h mi s us], b as [[y' m' d'] h' mi' s' us'].
  cbn [dt_date year month day hour minute second microsecond].
  intros Va Vb H.
  apply zfill4_app in H. destruct H as [Ey H].
  apply zfill2_app in H. destruct H as [Em H].
  apply zfill2_app in H. destruct H as [Ed H].
  apply string_app_inv_head in H.
  apply zfill2_app in H. destruct H as [Eh H].
  apply zfill2_app in H. destruct H as [Emi Es].
  apply zfill4_inj in Ey; [|lia|lia].
  apply zfill2_inj in Em; [|lia|lia].
  apply zfill2_inj in Ed; [|lia|lia].
  apply zfill2_inj in Eh; [|lia|lia].
  apply zfill2_inj in Emi; [|lia|lia].
  apply zfill2_inj in Es; [|lia|lia].
  subst. repeat split.
Qed.

Lemma chart_filename_inj (a b : datetime) :
  valid_datetime a -> valid_datetime b ->
  chart_filename a = chart_filename b <-> same_second a b.
Proof.
  intros Va Vb. split.
  - intros H. apply strftime_stamp_inj; try assumption.
    unfold chart_filename in H. apply string_app_inv_head in H.
    unfold strftime_stamp in *. rewrite !string_app_assoc in H.
    apply zfill4_app in H. destruct H as [Ey H].
    apply zfill2_app in H. destruct H as [Em H].
    apply zfill2_app in H. destruct H as [Ed H].
    apply string_app_inv_head in H.
    apply zfill2_app in H. destruct H as [Eh H].
    apply zfill2_app in H. destruct H as [Emi H].
    apply zfill2_app in H. destruct H as [Es _].
    congruence.
  - intros (Hd & Hh & Hm & Hs). unfold chart_filename, strftime_stamp.
    rewrite Hd, Hh, Hm, Hs. reflexivity.
Qed.

Lemma read_write_same (name : string) (f : Figure) (d : Directory) :
  read_file name (write_file name f d) = Some f.
Proof.
  unfold read_file, write_file. cbn [find fst].
  rewrite String.eqb_refl. reflexivity.
Qed.

Lemma read_write_other (name name' : string) (f : Figure) (d : Directory) :
  name' <> name ->
  read_file name' (write_file name f d) = read_file name' d.
Proof.
  intros Hne. unfold read_file, write_file. cbn [find fst].
  apply String.eqb_neq in Hne.
  rewrite String.eqb_sym, Hne. f_equal.
  induction d as [|[n g] t IH]; cbn [filter find fst]; [reflexivity|].
  destruct (String.eqb n name) eqn:E; cbn [negb find fst].
  - apply String.eqb_eq in E. subst n.
    rewrite String.eqb_sym, Hne. exact IH.
  - destruct (String.eqb n name'); [reflexivity | exact IH].
Qed.




(* ------------------------------------------------------------------ *)
(** ** Routes and the report store *)

Lemma strip_nonempty (s : string) :
  strip_is_empty s = false -> ((s =? "")%string || strip_is_empty s) = false.
Proof.
  intros H. rewrite H. destruct s; [discriminate H | reflexivity].
Qed.

Section StoreFacts.

Variable text : Type.
Variable dumps : json -> text.
Variable loads : text -> result json.
Variable to_datetime : cell -> option datetime.
Variable parse_numeric : string -> option Q.

Lemma max_rowid_ge (l : list (ReportRow text)) (r : ReportRow text) :
  In r l -> id r <= max_rowid text l.
Proof.
  induction l as [|x t IH]; simpl; intros H; [destruct H|].
  destruct H as [->|H]; [lia|]. specialize (IH H). lia.
Qed.

Lemma find_inserted (l : list (ReportRow text)) (new : ReportRow text)
  (n : Z) :
  id new = n -> max_rowid text l < n ->
  find (fun r => id r =? n) (l ++ [new])%list = Some new.
Proof.
  intros Hid Hlt.
  assert (Hall : forall r, In r l -> id r <> n).
  { intros r Hr. apply max_rowid_ge in Hr. lia. }
  clear Hlt. induction l as [|x t IH]; simpl.
  - rewrite Hid, Z.eqb_refl. reflexivity.
  - destruct (id x =? n) eqn:E.
    + apply Z.eqb_eq in E. elim (Hall x (or_introl eq_refl) E).
    + apply IH. intros r Hr. apply Hall. right. exact Hr.
Qed.

Lemma select_inserted (t : Table text) (mk : Z -> ReportRow text) :
  (forall n, id (mk n) = n) ->
  select_by_id text (fst (insert_report text t mk))
    (snd (insert_report text t mk))
  = Some (mk (snd (insert_report text t mk))).
Proof.
  intros Hmk. unfold select_by_id, insert_report. cbn [fst snd rows].
  apply find_inserted; [apply Hmk | lia].
Qed.

(** C4.  When the upload cleans to an empty frame, [report_create] leaves
    the database and the chart directory as they were and answers with the
    empty-data message; the answer to a table that lacks a required column
    is a different one, and it too leaves the store as it was; and a table
    with the required columns and no data rows cleans to the empty frame. *)
Theorem C4_empty_dataset (f : Upload)
  (now_chart now_created : datetime) (w : World text) :
  strip_is_empty (filename f) = false ->
  load_and_clean to_datetime parse_numeric f = Ok [] ->
  report_create text dumps to_datetime parse_numeric (Some f)
    now_chart now_created w
  = (w, RenderIndex (Some empty_message))
  /\ (forall f' raw' w',
        strip_is_empty (filename f') = false ->
        read_csv f' = Ok raw' ->
        (exists c, In c REQUIRED_COLS /\ ~ In c (columns raw')) ->
        fst (report_create text dumps to_datetime parse_numeric (Some f')
               now_chart now_created w') = w'
        /\ snd (report_create text dumps to_datetime parse_numeric (Some f')
                  now_chart now_created w')
           <> RenderIndex (Some empty_message))
  /\ (forall f' cols,
        read_csv f' = Ok (mkDataFrame cols []) ->
        (forall c, In c REQUIRED_COLS -> In c cols) ->
        load_and_clean to_datetime parse_numeric f' = Ok []).
Proof.
  intros Hname Hclean. split; [|split].
  - unfold report_create. rewrite (strip_nonempty _ Hname), Hclean.
    reflexivity.
  - intros f' raw' w' Hname' Hread' Hmiss.
    unfold report_create. rewrite (strip_nonempty _ Hname').
    rewrite (load_and_clean_missing _ _ _ _ Hread'
               (missing_cols_nonempty _ Hmiss)).
    split; [reflexivity|]. cbn. discriminate.
  - intros f' cols Hread' Hcols.
    rewrite (load_and_clean_frame _ _ _ _ Hread'). cbn [columns data].
    rewrite (missing_cols_nil _ Hcols). reflexivity.
Qed.

End StoreFacts.

Section RoundTrip.

Variable text : Type.
Variable dumps : json -> text.
Variable loads : text -> result json.
Variable to_datetime : cell -> option datetime.
Variable parse_numeric : string -> option Q.

(** [json.loads] reads back what [json.dumps] wrote. *)
Hypothesis loads_dumps : forall v, loads (dumps v) = Ok v.


End RoundTrip.


Lemma C4_empty_dataset_witness :
  report_create json (fun v => v) to_datetime_iso parse_numeric_none
    (Some upload_C) clock_a clock_c empty_world
  = (empty_world, RenderIndex (Some empty_message))
  /\ (forall f' raw' w',
        strip_is_empty (filename f') = false ->
        read_csv f' = Ok raw' ->
        (exists c, In c REQUIRED_COLS /\ ~ In c (columns raw')) ->
        fst (report_create json (fun v => v) to_datetime_iso
               parse_numeric_none (Some f') clock_a clock_c w') = w'
        /\ snd (report_create json (fun v => v) to_datetime_iso
                  parse_numeric_none (Some f') clock_a clock_c w')
           <> RenderIndex (Some empty_message))
  /\ (forall f' cols,
        read_csv f' = Ok (mkDataFrame cols []) ->
        (forall c, In c REQUIRED_COLS -> In c cols) ->
        load_and_clean to_datetime_iso parse_numeric_none f' = Ok []).
Proof.
  apply (C4_empty_dataset json (fun v => v) to_datetime_iso
           parse_numeric_none upload_C clock_a clock_c empty_world);
    vm_compute; reflexivity.
Defined.

(* ------------------------------------------------------------------ *)
(** ** The store across requests *)

Section StoreExtras.

Variable text : Type.
Variable dumps : json -> text.
Variable loads : text -> result json.
Variable to_datetime : cell -> option datetime.
Variable parse_numeric : string -> option Q.

Local Abbreviation create := (report_create text dumps to_datetime parse_numeric).

(** The row written by a successful [report_create]. *)
Let new_row (f : Upload) (s : Summary) (now_chart now_created : datetime)
  (n : Z) : ReportRow text :=
  {| id := n;
     created_at := isoformat_seconds now_created;
     original_filename := filename f;
     kpi_json := dumps (kpi_dict (kpi s));
     top_products_json := dumps (top_products_records s);
     daily_json := dumps (daily_records s);
     chart_file := chart_filename now_chart |}.

(** The three ways a request to [POST /report] ends. *)
Lemma report_create_cases (file : option Upload)
  (now_chart now_created : datetime) (w : World text) :
  (exists msg, create file now_chart now_created w
               = (w, RenderIndex (Some msg)))
  \/ (exists f df,
        file = Some f /\ db w = None
        /\ load_and_clean to_datetime parse_numeric f = Ok df /\ df <> []
        /\ create file now_chart now_created w
           = (mkWorld None
                (write_file (chart_filename now_chart) (chart_series df)
                   (static w)),
              RenderIndex (Some "Hata: no such table: reports")))
  \/ (exists f df s t,
        file = Some f /\ db w = Some t
        /\ strip_is_empty (filename f) = false
        /\ load_and_clean to_datetime parse_numeric f = Ok df /\ df <> []
        /\ summarize df = Ok s
        /\ create file now_chart now_created w
           = (let n := Z.max (max_rowid text (rows t)) (sqlite_sequence t) + 1 in
              (mkWorld
                 (Some (mkTable
                          (rows t ++ [new_row f s now_chart now_created n])%list
                          n))
                 (write_file (chart_filename now_chart) (chart_series df)
                    (static w)),
               Redirect n))).
Proof.
  unfold create, report_create.
  destruct file as [f|]; [|left; eexists; reflexivity].
  destruct ((filename f =? "")%string || strip_is_empty (filename f)) eqn:G;
    [left; eexists; reflexivity|].
  apply orb_false_iff in G. destruct G as [_ Hname].
  destruct (load_and_clean to_datetime parse_numeric f) as [df|e] eqn:Hclean;
    [|left; eexists; reflexivity].
  destruct df as [|r df']; [left; eexists; reflexivity|].
  destruct (summarize_total (r :: df')) as [a [Hs _]]. rewrite Hs.
  unfold make_daily_revenue_chart.
  destruct (db w) as [t|] eqn:Hdb.
  - right. right. eexists f, (r :: df'), _, t.
    split; [reflexivity|]. split; [reflexivity|]. split; [exact Hname|].
    split; [exact Hclean|]. split; [discriminate|]. split; [exact Hs|].
    unfold insert_report, new_row. reflexivity.
  - right. left. exists f, (r :: df').
    split; [reflexivity|]. split; [reflexivity|]. split; [exact Hclean|].
    split; [discriminate|]. reflexivity.
Qed.

Lemma find_app_other (l : list (ReportRow text)) (new : ReportRow text)
  (n : Z) :
  id new <> n ->
  find (fun r => id r =? n) (l ++ [new])%list = find (fun r => id r =? n) l.
Proof.
  intros Hne. induction l as [|x t IH]; simpl.
  - apply Z.eqb_neq in Hne. rewrite Hne. reflexivity.
  - destruct (id x =? n); [reflexivity | exact IH].
Qed.

Lemma max_rowid_Forall (l : list (ReportRow text)) (n : Z) :
  max_rowid text l < n -> Forall (fun r => id r < n) l.
Proof.
  intros H. apply Forall_forall. intros r Hr.
  apply max_rowid_ge in Hr. lia.
Qed.

(** X1.  On an existing table [report_create] only ever appends: the rows
    it found are all still there, unchanged and in place, the counter does
    not go down, and a row is added exactly when the answer is a redirect,
    to the identifier of that row, which lies above the old counter and
    above every identifier already in the table. *)
Theorem report_create_appends (file : option Upload)
  (now_chart now_created : datetime) (w : World text) (t : Table text) :
  db w = Some t ->
  exists t',
    db (fst (create file now_chart now_created w)) = Some t'
    /\ sqlite_sequence t <= sqlite_sequence t'
    /\ ((rows t' = rows t
         /\ forall n, snd (create file now_chart now_created w) <> Redirect n)
        \/ (exists new,
              rows t' = (rows t ++ [new])%list
              /\ snd (create file now_chart now_created w) = Redirect (id new)
              /\ sqlite_sequence t' = id new
              /\ sqlite_sequence t < id new
              /\ Forall (fun r => id r < id new) (rows t))).
Proof.
  intros Hdb.
  destruct (report_create_cases file now_chart now_created w)
    as [[msg H] | [(f & df & _ & Hnone & _) | (f & df & s & t0 & _ & Hdb' & _ & _ & _ & _ & H)]].
  - rewrite H. cbn [fst snd]. exists t. split; [exact Hdb|].
    split; [lia|]. left. split; [reflexivity | discriminate].
  - congruence.
  - rewrite H. cbn zeta. cbn [fst snd db]. eexists. split; [reflexivity|].
    assert (t0 = t) by congruence. subst t0.
    cbn [sqlite_sequence rows]. split; [lia|]. right.
    eexists. split; [reflexivity|]. unfold new_row. cbn [id].
    split; [reflexivity|]. split; [reflexivity|]. split; [lia|].
    apply max_rowid_Forall. lia.
Qed.



(** X4.  Identifiers grow: of two reports created one after the other, with
    any number of requests of any kind in between, the later one has the
    larger identifier. *)
Theorem report_ids_increase
  (file1 : option Upload) (now1 now1' : datetime)
  (between : list (option Upload * datetime * datetime))
  (file2 : option Upload) (now2 now2' : datetime)
  (w w1 w2 : World text) (n1 n2 : Z) :
  create file1 now1 now1' w = (w1, Redirect n1) ->
  create file2 now2 now2'
    (fold_left (fun v q => fst (create (fst (fst q)) (snd (fst q)) (snd q) v))
               between w1)
  = (w2, Redirect n2) ->
  n1 < n2.
Proof.
  intros H1 H2.
  assert (Hseq1 : exists t1, db w1 = Some t1 /\ n1 <= sqlite_sequence t1).
  { destruct (report_create_cases file1 now1 now1' w)
      as [[msg H] | [(f & df & _ & _ & _ & _ & H) | (f & df & s & t0 & _ & _ & _ & _ & _ & _ & H)]];
      rewrite H in H1; try discriminate H1.
    cbn zeta in H1. injection H1 as <- <-. eexists. split; [reflexivity|].
    cbn [sqlite_sequence]. lia. }
  destruct Hseq1 as [t1 [Hdb1 Hn1]].
  assert (Hmid : exists tm,
            db (fold_left
                  (fun v q => fst (create (fst (fst q)) (snd (fst q)) (snd q) v))
                  between w1) = Some tm
            /\ n1 <= sqlite_sequence tm).
  { clear H1 H2. revert w1 t1 Hdb1 Hn1.
    induction between as [|q qs IH]; intros w1 t1 Hdb1 Hn1; cbn [fold_left].
    - exists t1. split; assumption.
    - destruct (report_create_appends (fst (fst q)) (snd (fst q)) (snd q)
                  w1 t1 Hdb1) as (t' & Hdb' & Hle & _).
      apply (IH _ t' Hdb'). lia. }
  destruct Hmid as [tm [Hdbm Hnm]].
  destruct (report_create_appends file2 now2 now2' _ tm Hdbm)
    as (t' & _ & _ & [[_ Hno] | (new & _ & Hred & _ & Hlt & _)]).
  - rewrite H2 in Hno. elim (Hno n2). reflexivity.
  - rewrite H2 in Hred. cbn [snd] in Hred. injection Hred as ->. lia.
Qed.


(** X6.  On an existing table [report_view] answers "not found" exactly
    when no row carries the identifier; a row whose stored JSON cannot be
    read back gives an error of its own, never "not found". *)
Theorem report_view_not_found (report_id : Z) (w : World text)
  (t : Table text) :
  db w = Some t ->
  (report_view text loads report_id w = NotFound
   <-> forall r, In r (rows t) -> id r <> report_id).
Proof.
  intros Hdb. unfold report_view, select_by_id. rewrite Hdb.
  destruct (find (fun r => id r =? report_id) (rows t)) as [row|] eqn:E.
  - apply find_some in E. destruct E as [Hin Hid]. apply Z.eqb_eq in Hid.
    split.
    + destruct (loads (kpi_json row)); cbn [bind]; [|discriminate].
      destruct (loads (top_products_json row)); cbn [bind]; [|discriminate].
      destruct (loads (daily_json row)); cbn [bind]; discriminate.
    + intros H. elim (H row Hin Hid).
  - split; [|reflexivity]. intros _ r Hr Hid.
    apply (find_none _ _ E) in Hr. apply Z.eqb_neq in Hr. contradiction.
Qed.

(** X7.  What [report_view] renders comes from one stored row: the row
    carries the requested identifier, the three values are what
    [json.loads] reads from its three JSON columns, and the chart name and
    the provenance are its own. *)
Theorem report_view_renders_row (report_id : Z) (w : World text)
  (k tp d : json) (chart : string) (mid : Z) (mc mf : string) :
  report_view text loads report_id w = RenderReport k tp d chart mid mc mf ->
  mid = report_id
  /\ exists t row,
       db w = Some t /\ In row (rows t) /\ id row = report_id
       /\ loads (kpi_json row) = Ok k
       /\ loads (top_products_json row) = Ok tp
       /\ loads (daily_json row) = Ok d
       /\ chart = chart_file row
       /\ mc = created_at row /\ mf = original_filename row.
Proof.
  unfold report_view, select_by_id.
  destruct (db w) as [t|] eqn:Hdb; [|discriminate].
  destruct (find (fun r => id r =? report_id) (rows t)) as [row|] eqn:E;
    [|discriminate].
  apply find_some in E. destruct E as [Hin Hid]. apply Z.eqb_eq in Hid.
  destruct (loads (kpi_json row)) as [k'|] eqn:Ek; cbn [bind]; [|discriminate].
  destruct (loads (top_products_json row)) as [tp'|] eqn:Etp; cbn [bind];
    [|discriminate].
  destruct (loads (daily_json row)) as [d'|] eqn:Ed; cbn [bind];
    [|discriminate].
  intros H. injection H as <- <- <- <- <- <- <-.
  split; [exact Hid|]. exists t, row.
  repeat (split; [first [assumption | reflexivity]|]). reflexivity.
Qed.

Lemma max_rowid_nonneg (l : list (ReportRow text)) : 0 <= max_rowid text l.
Proof. induction l as [|x t IH]; simpl; lia. Qed.

Lemma report_create_world_ok (file : option Upload)
  (now_chart now_created : datetime) (w : World text) :
  world_ok w -> world_ok (fst (create file now_chart now_created w)).
Proof.
  intros Hok.
  destruct (report_create_cases file now_chart now_created w)
    as [[msg H] | [(f & df & _ & Hdb & _ & _ & H) | (f & df & s & t & _ & Hdb & _ & _ & _ & _ & H)]];
    rewrite H; cbn zeta; cbn [fst].
  - exact Hok.
  - exact I.
  - unfold world_ok in *. rewrite Hdb in Hok. cbn [db].
    destruct Hok as [Hnd Hall]. unfold table_ok. cbn [rows sqlite_sequence].
    set (n := Z.max (max_rowid text (rows t)) (sqlite_sequence t) + 1).
    assert (Hlt : Forall (fun r => id r < n) (rows t))
      by (apply max_rowid_Forall; unfold n; lia).
    assert (Hpos : 0 < n)
      by (pose proof (max_rowid_nonneg (rows t)); unfold n; lia).
    split.
    + rewrite map_app. cbn [map]. unfold new_row. cbn [id].
      apply (Permutation_NoDup (Permutation_cons_append _ _)).
      constructor; [|exact Hnd].
      intros Hin. apply in_map_iff in Hin. destruct Hin as [r [Hr Hin]].
      rewrite Forall_forall in Hlt. specialize (Hlt r Hin). lia.
    + apply Forall_app. split.
      * rewrite Forall_forall in *. intros r Hr.
        specialize (Hall r Hr). specialize (Hlt r Hr). lia.
      * constructor; [|constructor]. unfold new_row. cbn [id]. lia.
Qed.

(** X8.  Starting from [init_db] on a store without the table, after any
    sequence of requests to [POST /report] the table exists and its
    identifiers are positive, pairwise distinct and not above the counter. *)
Theorem store_identifiers_distinct
  (requests : list (option Upload * datetime * datetime))
  (static0 : Directory) :
  exists t,
    db (fold_left
          (fun v q => fst (create (fst (fst q)) (snd (fst q)) (snd q) v))
          requests (init_db text (mkWorld None static0)))
    = Some t
    /\ NoDup (map id (rows t))
    /\ Forall (fun r => 0 < id r <= sqlite_sequence t) (rows t).
Proof.
  assert (Hgen : forall w t0,
            db w = Some t0 -> world_ok w ->
            exists t,
              db (fold_left
                    (fun v q =>
                       fst (create (fst (fst q)) (snd (fst q)) (snd q) v))
                    requests w) = Some t
              /\ table_ok t).
  { induction requests as [|q qs IH]; intros w t0 Hdb Hok; cbn [fold_left].
    - exists t0. split; [exact Hdb|]. unfold world_ok in Hok.
      rewrite Hdb in Hok. exact Hok.
    - destruct (report_create_appends (fst (fst q)) (snd (fst q)) (snd q)
                  w t0 Hdb) as (t' & Hdb' & _).
      apply (IH _ t' Hdb'). apply report_create_world_ok, Hok. }
  destruct (Hgen (init_db text (mkWorld None static0))
              {| rows := []; sqlite_sequence := 0 |} eq_refl)
    as (t & Hdb & Hnd & Hall).
  - unfold world_ok, table_ok. cbn. split; constructor.
  - exists t. repeat split; assumption.
Qed.

Lemma id_geb_total (a b : ReportRow text) :
  id_geb a b = false -> id_geb b a = true.
Proof. unfold id_geb. rewrite Z.leb_gt, Z.leb_le. lia. Qed.

Lemma id_geb_trans (a b c : ReportRow text) :
  id_geb a b = true -> id_geb b c = true -> id_geb a c = true.
Proof. unfold id_geb. rewrite !Z.leb_le. lia. Qed.

Lemma newest_first_strict (l : list (ReportRow text)) :
  NoDup (map id l) ->
  StronglySorted (fun a b => id b < id a) (sort id_geb l).
Proof.
  intros Hnd.
  assert (Hs : StronglySorted (fun a b => id_geb a b = true) (sort id_geb l))
    by (apply sort_sorted; [apply id_geb_total | apply id_geb_trans]).
  assert (Hnd' : NoDup (map id (sort id_geb l)))
    by (apply (Permutation_NoDup
                 (Permutation_map id (Permutation_sym (sort_perm id_geb l))));
        exact Hnd).
  induction Hs as [|x t Hs IH Hall]; [constructor|].
  cbn [map] in Hnd'. inversion Hnd' as [|? ? Hx Ht]; subst.
  constructor; [apply IH, Ht|].
  rewrite Forall_forall in *. intros z Hz.
  specialize (Hall z Hz). unfold id_geb in Hall. apply Z.leb_le in Hall.
  assert (id z <> id x).
  { intros E. apply Hx. rewrite <- E. apply in_map, Hz. }
  lia.
Qed.

(** X9.  On a table with distinct identifiers [history] lists at most 50
    reports, each the identifier, time and file name of a stored row, in
    strictly descending order of identifier; with at most 50 rows in the
    table every one of them is listed. *)
Theorem history_newest_first (w : World text) (t : Table text) :
  db w = Some t ->
  NoDup (map id (rows t)) ->
  exists l,
    history w = RenderHistory l
    /\ (List.length l <= 50)%nat
    /\ StronglySorted (fun a b => h_id b < h_id a) l
    /\ (forall e, In e l -> exists r, In r (rows t) /\ e = history_entry r)
    /\ ((List.length (rows t) <= 50)%nat ->
        forall r, In r (rows t) -> In (history_entry r) l).
Proof.
  intros Hdb Hnd. unfold history. rewrite Hdb. eexists.
  split; [reflexivity|].
  split; [rewrite length_map; apply firstn_le_length|].
  split.
  { apply StronglySorted_map. cbn [history_entry h_id].
    apply StronglySorted_firstn, newest_first_strict, Hnd. }
  split.
  { intros e He. apply in_map_iff in He. destruct He as [r [<- Hr]].
    exists r. split; [|reflexivity]. apply In_firstn, sort_In in Hr. exact Hr. }
  intros Hlen r Hr. apply in_map. rewrite firstn_all2.
  - apply sort_In, Hr.
  - rewrite sort_length. exact Hlen.
Qed.

(** X10.  Right after a report is created it heads the list of [history],
    under the identifier handed out, with the time of the request and the
    name of the uploaded file. *)
Theorem history_after_create (f : Upload)
  (now_chart now_created : datetime) (w w' : World text) (n : Z) :
  create (Some f) now_chart now_created w = (w', Redirect n) ->
  exists rest,
    history w'
    = RenderHistory
        (mkHistoryEntry n (isoformat_seconds now_created) (filename f) :: rest).
Proof.
  intros H.
  destruct (report_create_cases (Some f) now_chart now_created w)
    as [[msg H'] | [(f' & df & _ & _ & _ & _ & H') | (f' & df & s & t & Hf & Hdb & _ & _ & _ & _ & H')]];
    rewrite H' in H; try discriminate H.
  cbn zeta in H. injection Hf as <-. injection H as <- <-.
  unfold history. cbn [db rows].
  set (m := Z.max (max_rowid text (rows t)) (sqlite_sequence t) + 1).
  set (new := new_row f s now_chart now_created m).
  assert (Hlt : Forall (fun r => id r < m) (rows t))
    by (apply max_rowid_Forall; unfold m; lia).
  assert (Hs : StronglySorted (fun a b => id_geb a b = true)
                 (sort id_geb (rows t ++ [new])%list))
    by (apply sort_sorted; [apply id_geb_total | apply id_geb_trans]).
  assert (Hnew : In new (sort id_geb (rows t ++ [new])%list))
    by (apply sort_In, in_or_app; right; left; reflexivity).
  destruct (sort id_geb (rows t ++ [new])%list) as [|h tl] eqn:E;
    [destruct Hnew|].
  assert (Hh : In h (rows t ++ [new])%list)
    by (apply (sort_In id_geb); rewrite E; left; reflexivity).
  assert (Ehn : h = new).
  { apply in_app_or in Hh. destruct Hh as [Hh | [Hh | []]]; [|congruence].
    exfalso. rewrite Forall_forall in Hlt. specialize (Hlt h Hh).
    destruct Hnew as [Hnew | Hnew].
    - subst h. assert (Em : id new = m) by reflexivity. lia.
    - inversion Hs as [|? ? _ Hall]; subst. rewrite Forall_forall in Hall.
      specialize (Hall new Hnew). unfold id_geb in Hall.
      apply Z.leb_le in Hall.
      assert (Em : id new = m) by reflexivity. lia. }
  subst h. cbn [firstn map]. eexists. unfold new, new_row, history_entry.
  cbn [id created_at original_filename]. reflexivity.
Qed.

End StoreExtras.

(* ------------------------------------------------------------------ *)
(** ** The chart series and the daily table *)

Lemma Qsum_perm (l l' : list Q) : Permutation l l' -> (Qsum l == Qsum l')%Q.
Proof.
  induction 1 as [| x l l' _ IH | x y l | l l' l'' _ IH1 _ IH2]; simpl.
  - reflexivity.
  - rewrite IH. reflexivity.
  - rewrite !Qplus_assoc. apply Qplus_comp; [apply Qplus_comm | reflexivity].
  - rewrite IH1. exact IH2.
Qed.

Lemma filter_all {A} (p : A -> bool) (l : list A) :
  (forall x, In x l -> p x = true) -> filter p l = l.
Proof.
  induction l as [|x t IH]; intros H; simpl; [reflexivity|].
  rewrite (H x (or_introl eq_refl)). f_equal.
  apply IH. intros y Hy. apply H. right. exact Hy.
Qed.

Lemma StronglySorted_snoc {A} (R : A -> A -> Prop) (l : list A) (x : A) :
  StronglySorted R l -> Forall (fun y => R y x) l ->
  StronglySorted R (l ++ [x])%list.
Proof.
  induction 1 as [|y t Hs IH Hall]; intros Hx; simpl.
  - repeat constructor.
  - inversion Hx as [|? ? Hyx Htx]; subst. constructor; [apply IH, Htx|].
    apply Forall_app. split; [exact Hall | repeat constructor; exact Hyx].
Qed.

Lemma StronglySorted_rev {A} (R : A -> A -> Prop) (l : list A) :
  StronglySorted R l -> StronglySorted (fun a b => R b a) (rev l).
Proof.
  induction 1 as [|x t Hs IH Hall]; simpl; [constructor|].
  apply StronglySorted_snoc; [exact IH|].
  rewrite Forall_forall in *. intros y Hy. apply Hall, in_rev, Hy.
Qed.

(** Two lists in strict order with the same elements are the same list. *)
Lemma StronglySorted_unique {A} (R : A -> A -> Prop) :
  (forall a, ~ R a a) -> (forall a b c, R a b -> R b c -> R a c) ->
  forall l1 l2 : list A,
    StronglySorted R l1 -> StronglySorted R l2 ->
    (forall x, In x l1 <-> In x l2) -> l1 = l2.
Proof.
  intros Hirr Htr l1. induction l1 as [|x1 t1 IH]; intros l2 H1 H2 Hin.
  - destruct l2 as [|x2 t2]; [reflexivity|].
    destruct (proj2 (Hin x2) (or_introl eq_refl)).
  - destruct l2 as [|x2 t2]; [destruct (proj1 (Hin x1) (or_introl eq_refl))|].
    inversion H1 as [|? ? Hs1 Ha1]; subst.
    inversion H2 as [|? ? Hs2 Ha2]; subst.
    rewrite Forall_forall in Ha1, Ha2.
    assert (E : x1 = x2).
    { destruct (proj1 (Hin x1) (or_introl eq_refl)) as [E|Hx1];
        [symmetry; exact E|].
      destruct (proj2 (Hin x2) (or_introl eq_refl)) as [E|Hx2]; [exact E|].
      elim (Hirr x1). apply Htr with x2; [apply Ha1, Hx2 | apply Ha2, Hx1]. }
    subst x2. f_equal. apply IH; try assumption.
    intros x. split; intros Hx.
    + destruct (proj1 (Hin x) (or_intror Hx)) as [E|Hx']; [|exact Hx'].
      subst x. elim (Hirr x1). apply Ha1, Hx.
    + destruct (proj2 (Hin x) (or_intror Hx)) as [E|Hx']; [|exact Hx'].
      subst x. elim (Hirr x1). apply Ha2, Hx.
Qed.

Lemma chart_series_facts (df : list Row) :
  StronglySorted (fun a b => date_lt (fst a) (fst b)) (chart_series df)
  /\ (forall p, In p (chart_series df)
                <-> exists r, In r df /\ p = day_point df (day_of r)).
Proof.
  unfold chart_series.
  set (pts := map (fun d => (d, Qsum (map revenue (day_group df d))))
                  (group_keys date_eq_dec date_leb (map day_of df))).
  set (leb := fun a b : date * Q => date_leb (fst a) (fst b)).
  assert (Hkeys : map fst pts = group_keys date_eq_dec date_leb (map day_of df))
    by (unfold pts; rewrite map_map; apply map_id).
  assert (Hnd : NoDup (map fst (sort leb pts))).
  { apply (Permutation_NoDup
             (Permutation_map fst (Permutation_sym (sort_perm leb pts)))).
    rewrite Hkeys. apply group_keys_NoDup. }
  split.
  - assert (Hs : StronglySorted (fun a b => leb a b = true) (sort leb pts)).
    { apply sort_sorted.
      - intros a b. apply date_leb_total.
      - intros a b c. apply date_leb_trans. }
    induction Hs as [|x t Hs IH Hall]; [constructor|].
    cbn [map] in Hnd. inversion Hnd as [|? ? Hx Ht]; subst.
    constructor; [apply IH, Ht|].
    rewrite Forall_forall in *. intros z Hz. specialize (Hall z Hz).
    unfold leb in Hall. apply date_leb_iff in Hall.
    destruct Hall as [Hlt | E]; [exact Hlt|].
    elim Hx. rewrite E. apply in_map, Hz.
  - intros p. rewrite sort_In. unfold pts. rewrite in_map_iff. split.
    + intros [d [<- Hd]]. apply group_keys_In, in_map_iff in Hd.
      destruct Hd as [r [<- Hr]]. exists r. split; [exact Hr | reflexivity].
    + intros [r [Hr ->]]. exists (day_of r). split; [reflexivity|].
      apply group_keys_In, in_map. exact Hr.
Qed.


(** X12.  The daily table is the chart series read backwards and cut to its
    first 14 points: the same days with the same revenue, newest first. *)
Theorem daily_frame_is_chart_reversed (df : list Row) :
  map (fun a => (a_day a, a_revenue a)) (daily_frame df)
  = firstn 14 (rev (chart_series df)).
Proof.
  unfold daily_frame. rewrite <- firstn_map. f_equal.
  destruct (chart_series_facts df) as [Hs Hin].
  destruct (daily_sorted_facts df) as (Hd & Hagg & Hdays).
  apply (StronglySorted_unique (fun a b : date * Q => date_lt (fst b) (fst a))).
  - intros a. apply date_lt_irrefl.
  - intros a b c H1 H2. eapply date_lt_trans; eassumption.
  - apply StronglySorted_map. cbn [fst].
    clear - Hd.
    induction (sort day_geb (groupby_day df)) as [|x t IH]; [constructor|].
    cbn [map] in Hd. inversion Hd as [|? ? Hs Hall]; subst.
    constructor; [apply IH, Hs|].
    rewrite Forall_forall in *. intros z Hz. apply Hall, in_map, Hz.
  - apply StronglySorted_rev in Hs. exact Hs.
  - intros p. rewrite <- in_rev, Hin, in_map_iff. split.
    + intros [a [<- Ha]]. pose proof (Hagg a Ha) as Ea.
      assert (Hday : In (a_day a) (map a_day (sort day_geb (groupby_day df))))
        by (apply in_map, Ha).
      apply Hdays in Hday. destruct Hday as [r [Hr Er]].
      exists r. split; [exact Hr|]. rewrite Ea at 2. cbn [daily_agg a_revenue].
      unfold day_point, day_of. rewrite Er. reflexivity.
    + intros [r [Hr ->]].
      assert (Hday : In (day_of r) (map a_day (sort day_geb (groupby_day df))))
        by (apply Hdays; exists r; split; [exact Hr | reflexivity]).
      apply in_map_iff in Hday. destruct Hday as [a [Ea Ha]].
      exists a. split; [|exact Ha]. rewrite (Hagg a Ha) at 2.
      cbn [daily_agg a_revenue]. unfold day_point. rewrite Ea. reflexivity.
Qed.

(* ------------------------------------------------------------------ *)
(** ** Totals of the groups *)

(** The sums of the groups of distinct keys add up to the sum over the
    rows whose key is among them. *)
Lemma Qsum_groups {K} (dec : forall a b : K, {a = b} + {a <> b})
  (key_of_row : Row -> K) (f : Row -> Q) (df : list Row) (keys : list K) :
  NoDup keys ->
  (Qsum (map (fun k =>
                Qsum (map f (filter (fun r => if dec (key_of_row r) k
                                              then true else false) df)))
             keys)
   == Qsum (map f (filter (fun r =>
                             existsb (fun k => if dec (key_of_row r) k
                                               then true else false) keys)
                          df)))%Q.
Proof.
  induction 1 as [|k t Hk Hnd IH]; simpl.
  - induction df as [|r rs IHr]; simpl; [reflexivity | exact IHr].
  - rewrite IH. symmetry.
    apply (Qsum_filter_orb f
             (fun r => if dec (key_of_row r) k then true else false)
             (fun r => existsb (fun k' => if dec (key_of_row r) k'
                                          then true else false) t)).
    intros r _ Hr. destruct (dec (key_of_row r) k) as [E|]; [|discriminate].
    destruct (existsb _ t) eqn:Ex; [|reflexivity].
    apply existsb_exists in Ex. destruct Ex as [k' [Hk' E']].
    destruct (dec (key_of_row r) k'); [|discriminate].
    elim Hk. congruence.
Qed.

Lemma Qsum_product_groups (f : Row -> Q) (df : list Row) :
  (Qsum (map (fun p => Qsum (map f (product_group df p)))
             (nodup key_eq_dec (map product df)))
   == Qsum (map f df))%Q.
Proof.
  unfold product_group, key_eqb.
  rewrite (Qsum_groups key_eq_dec product f df _ (NoDup_nodup _ _)).
  rewrite filter_all; [reflexivity|].
  intros r Hr. apply existsb_exists. exists (product r). split.
  - apply nodup_In, in_map, Hr.
  - destruct (key_eq_dec (product r) (product r)); congruence.
Qed.



(* ------------------------------------------------------------------ *)
(** ** The cleaner, row by row *)

Section CleanerExtras.

Variable to_datetime : cell -> option datetime.
Variable parse_numeric : string -> option Q.

Lemma load_and_clean_invariant (f : Upload) (df : list Row) :
  load_and_clean to_datetime parse_numeric f = Ok df ->
  Forall (fun r => (0 < quantity r)%Q /\ (0 <= unit_price r)%Q
                   /\ revenue r = (quantity r * unit_price r)%Q) df.
Proof.
  unfold load_and_clean.
  destruct (read_csv f) as [raw|e]; cbn [bind]; [|discriminate].
  destruct (missing_cols (columns raw)); [|discriminate].
  intros H. injection H as <-. apply clean_rows_invariant.
Qed.

Lemma dropna_app (l1 l2 : list CoercedRow) :
  dropna (l1 ++ l2)%list = (dropna l1 ++ dropna l2)%list.
Proof.
  induction l1 as [|r t IH]; simpl; [reflexivity|].
  destruct (dropna_row r); simpl; rewrite IH; reflexivity.
Qed.



End CleanerExtras.



(* ------------------------------------------------------------------ *)
(** ** Signs and counts of the summary *)

Lemma Qsum_pos (l : list Q) :
  l <> [] -> Forall (fun q => (0 < q)%Q) l -> (0 < Qsum l)%Q.
Proof.
  intros Hne Hall. destruct l as [|q t]; [elim Hne; reflexivity|].
  inversion Hall as [|? ? Hq Ht]; subst. simpl.
  setoid_replace 0%Q with (0 + 0)%Q by reflexivity.
  apply Qplus_lt_le_compat; [exact Hq|].
  apply Qsum_nonneg. rewrite Forall_forall in *.
  intros x Hx. apply Qlt_le_weak, Ht, Hx.
Qed.

Lemma Forall_map_of {A B} (P : B -> Prop) (f : A -> B) (l : list A) :
  Forall (fun x => P (f x)) l -> Forall P (map f l).
Proof. induction 1; simpl; constructor; assumption. Qed.



Lemma nunique_incl {A} (dec : forall a b : A, {a = b} + {a <> b})
  (l l' : list A) : incl l l' -> nunique dec l <= nunique dec l'.
Proof.
  intros H. unfold nunique. apply Nat2Z.inj_le, NoDup_incl_length.
  - apply NoDup_nodup.
  - intros x Hx. apply nodup_In. apply H. apply nodup_In in Hx. exact Hx.
Qed.

Lemma nunique_pos {A} (dec : forall a b : A, {a = b} + {a <> b})
  (l : list A) : l <> [] -> 1 <= nunique dec l.
Proof.
  intros Hne. pose proof (nunique_bounds dec l) as [H0 _].
  destruct (Z.eq_dec (nunique dec l) 0) as [E|E]; [|lia].
  apply nunique_zero in E. contradiction.
Qed.


(* ------------------------------------------------------------------ *)
(** ** Day texts *)

Lemma date_str_inj (a b : date) :
  valid_date a -> valid_date b -> date_str a = date_str b -> a = b.
Proof.
  unfold valid_date, date_str.
  destruct a as [y m d], b as [y' m' d']. cbn [year month day].
  intros Va Vb H.
  apply zfill4_app in H. destruct H as [Ey H].
  apply string_app_inv_head in H.
  apply zfill2_app in H. destruct H as [Em H].
  apply string_app_inv_head in H.
  apply zfill4_inj in Ey; [|lia|lia].
  apply zfill2_inj in Em; [|lia|lia].
  apply zfill2_inj in H; [|lia|lia].
  congruence.
Qed.

Lemma NoDup_map_on {A B} (f : A -> B) (l : list A) :
  (forall x y, In x l -> In y l -> f x = f y -> x = y) ->
  NoDup l -> NoDup (map f l).
Proof.
  intros Hinj Hnd. induction Hnd as [|x t Hx Hnd IH]; simpl; constructor.
  - intros Hin. apply in_map_iff in Hin. destruct Hin as [y [E Hy]].
    apply Hx. rewrite (Hinj x y); [exact Hy | left; reflexivity
                                   | right; exact Hy | symmetry; exact E].
  - apply IH. intros a b Ha Hb. apply Hinj; right; assumption.
Qed.



(* ------------------------------------------------------------------ *)
(** ** The store properties on concrete requests *)

Local Abbreviation create_json :=
  (report_create json dumps_id to_datetime_iso parse_numeric_none).

Lemma report_create_appends_witness :
  exists t',
    db (fst (create_json (Some upload_A) clock_a clock_c empty_world)) = Some t'
    /\ sqlite_sequence (mkTable (text := json) [] 0) <= sqlite_sequence t'
    /\ ((rows t' = rows (mkTable (text := json) [] 0)
         /\ forall n, snd (create_json (Some upload_A) clock_a clock_c empty_world)
                      <> Redirect n)
        \/ (exists new,
              rows t' = (rows (mkTable (text := json) [] 0) ++ [new])%list
              /\ snd (create_json (Some upload_A) clock_a clock_c empty_world)
                 = Redirect (id new)
              /\ sqlite_sequence t' = id new
              /\ sqlite_sequence (mkTable (text := json) [] 0) < id new
              /\ Forall (fun r => id r < id new)
                        (rows (mkTable (text := json) [] 0)))).
Proof.
  apply (report_create_appends json dumps_id to_datetime_iso
           parse_numeric_none (Some upload_A) clock_a clock_c empty_world
           (mkTable [] 0)).
  reflexivity.
Defined.



Lemma report_ids_increase_witness : 1 < 2.
Proof.
  apply (report_ids_increase json dumps_id to_datetime_iso parse_numeric_none
           (Some upload_A) clock_a clock_c
           [(Some upload_C, clock_a, clock_c); (None, clock_a, clock_c)]
           (Some upload_fractional) clock_c clock_c
           empty_world world_one world_two 1 2);
    vm_compute; reflexivity.
Defined.


Lemma report_view_not_found_witness :
  report_view json loads_id 7 world_one = NotFound
  <-> forall r, In r (rows table_one) -> id r <> 7.
Proof.
  apply (report_view_not_found json loads_id 7 world_one table_one).
  reflexivity.
Defined.

Lemma report_view_renders_row_witness :
  1 = 1
  /\ exists t row,
       db world_one = Some t /\ In row (rows t) /\ id row = 1
       /\ loads_id (kpi_json row) = Ok (kpi_dict (kpi scenario_A_summary))
       /\ loads_id (top_products_json row)
          = Ok (top_products_records scenario_A_summary)
       /\ loads_id (daily_json row) = Ok (daily_records scenario_A_summary)
       /\ chart_filename clock_a = chart_file row
       /\ isoformat_seconds clock_c = created_at row
       /\ "sales.csv" = original_filename row.
Proof.
  apply (report_view_renders_row json loads_id 1 world_one
           (kpi_dict (kpi scenario_A_summary))
           (top_products_records scenario_A_summary)
           (daily_records scenario_A_summary)
           (chart_filename clock_a) 1 (isoformat_seconds clock_c) "sales.csv").
  vm_compute. reflexivity.
Defined.

Lemma history_newest_first_witness :
  exists l,
    history world_two = RenderHistory l
    /\ (List.length l <= 50)%nat
    /\ StronglySorted (fun a b => h_id b < h_id a) l
    /\ (forall e, In e l ->
          exists r, In r (rows table_two) /\ e = history_entry r)
    /\ ((List.length (rows table_two) <= 50)%nat ->
        forall r, In r (rows table_two) -> In (history_entry r) l).
Proof.
  apply (history_newest_first json world_two table_two).
  - reflexivity.
  - vm_compute. repeat constructor; simpl; intuition discriminate.
Defined.

Lemma history_after_create_witness :
  exists rest,
    history world_one
    = RenderHistory
        (mkHistoryEntry 1 (isoformat_seconds clock_c) (filename upload_A)
           :: rest).
Proof.
  apply (history_after_create json dumps_id to_datetime_iso parse_numeric_none
           upload_A clock_a clock_c empty_world world_one 1).
  vm_compute. reflexivity.
Defined.
